(** * bdb-tool: the key-value store layer and its dump/restore text format

    A shallow embedding of the class [BDBTool] of [bin/bdb-tool.py].

    Text.  A Python [str] is represented by the byte string of its UTF-8
    encoding, one [ascii] per byte, so that [str.encode('utf-8')] and
    [bytes.decode('utf-8')] are the identity on the representation.  The
    three characters the program looks at (tab, line feed, carriage return)
    are single bytes below 128 and never occur inside a multi-byte sequence,
    hence [replace], [split] and [rstrip] act on bytes exactly as they act on
    code points.

    Engine.  The Berkeley DB hash file behind [self.db] is a finite map from
    byte strings to byte strings ([gmap string string]) together with the
    image of it that has reached the disk; [sync] copies the first onto the
    second.  The engine is taken to be reliable: the [except DBError]
    branches are not reachable in the model. *)

From Stdlib Require Import Ascii String.
From stdpp Require Import gmap strings list fin_maps pretty.

Local Open Scope string_scope.

(** ** Python string primitives used by the tool *)

Module PyStr.

Definition TAB : ascii := "009"%char.
Definition LF : ascii := "010"%char.
Definition CR : ascii := "013"%char.
Definition SP : ascii := " "%char.

(** [s.replace(c, r)] for a one-character pattern [c]. *)
Fixpoint replace (c : ascii) (r : string) (s : string) : string :=
  match s with
  | EmptyString => EmptyString
  | String a s' =>
      if Ascii.eqb a c then r +:+ replace c r s'
      else String a (replace c r s')
  end.

(** [s.rstrip(c)] for a one-character set: every trailing [c] goes. *)
Fixpoint rstrip (c : ascii) (s : string) : string :=
  match s with
  | EmptyString => EmptyString
  | String a s' =>
      match rstrip c s' with
      | EmptyString => if Ascii.eqb a c then EmptyString else String a EmptyString
      | t => String a t
      end
  end.

(** The text before the first [c], and the text after it when there is
    one. *)
Fixpoint cut (c : ascii) (s : string) : string * option string :=
  match s with
  | EmptyString => (EmptyString, None)
  | String a s' =>
      if Ascii.eqb a c then (EmptyString, Some s')
      else let '(h, t) := cut c s' in (String a h, t)
  end.

(** [s.split(c, 1)]: at most one split, at the first [c]. *)
Definition split1 (c : ascii) (s : string) : list string :=
  match cut c s with
  | (h, None) => [h]
  | (h, Some t) => [h; t]
  end.

(** [c in s] *)
Fixpoint mem (c : ascii) (s : string) : bool :=
  match s with
  | EmptyString => false
  | String a s' => Ascii.eqb a c || mem c s'
  end.

(** What a file opened in text mode with the default [newline=None] hands
    to its reader: [\r\n] and a lone [\r] both become [\n]. *)
Fixpoint universal_newlines (s : string) : string :=
  match s with
  | EmptyString => EmptyString
  | String a s' =>
      if Ascii.eqb a CR then
        match s' with
        | String b _ =>
            if Ascii.eqb b LF then universal_newlines s'
            else String LF (universal_newlines s')
        | EmptyString => String LF EmptyString
        end
      else String a (universal_newlines s')
  end.

(** Iterating over a text file: the lines, each with its terminating
    [\n], the last one possibly without. *)
Fixpoint lines (s : string) : list string :=
  match s with
  | EmptyString => []
  | String a s' =>
      if Ascii.eqb a LF then String a EmptyString :: lines s'
      else match lines s' with
           | [] => [String a EmptyString]
           | l :: ls => String a l :: ls
           end
  end.

(** [s.count(c)] *)
Fixpoint count (c : ascii) (s : string) : nat :=
  match s with
  | EmptyString => 0
  | String a s' => (if Ascii.eqb a c then 1 else 0) + count c s'
  end.

(** [str(n)] for a non-negative integer. *)
Definition of_nat (n : nat) : string := pretty n.

End PyStr.

(** ** The tool *)

Module BDBTool.

Import PyStr.

(** The object after [__init__]: the open database handle [self.db], what
    of it has been flushed to the file, and the two output streams as the
    sequence of chunks written to them. *)
Record t := mk {
  db : gmap string string;
  disk : gmap string string;
  stdout : list string;
  stderr : list string;
}.

(** A handle on a file that did not exist: [hashopen(db_file, "c")]. *)
Definition fresh : t := mk ∅ ∅ [] [].

(** A handle on an existing file holding [m]. *)
Definition opened (m : gmap string string) : t := mk m m [] [].

(** *** Engine and stream primitives *)

(** [self.db[k] = v] *)
Definition db_put (k v : string) (st : t) : t :=
  mk (<[k := v]> (db st)) (disk st) (stdout st) (stderr st).

(** [del self.db[k]] *)
Definition db_del (k : string) (st : t) : t :=
  mk (delete k (db st)) (disk st) (stdout st) (stderr st).

(** [self.db.sync()] *)
Definition db_sync (st : t) : t :=
  mk (db st) (db st) (stdout st) (stderr st).

(** [k in self.db] *)
Definition db_has (k : string) (st : t) : bool :=
  bool_decide (is_Some (db st !! k)).

(** [sys.stderr.write(msg)] *)
Definition write_stderr (msg : string) (st : t) : t :=
  mk (db st) (disk st) (stdout st) (stderr st ++ [msg]).

(** [print(line)] *)
Definition print (line : string) (st : t) : t :=
  mk (db st) (disk st) (stdout st ++ [line +:+ String LF ""]) (stderr st).

(** [value.replace('\r', '').replace('\n', ' ')] *)
Definition normalize (value : string) : string :=
  replace LF (String SP "") (replace CR "" value).

(** *** Messages *)

Definition msg_key_exists (key : string) : string :=
  "Error: Key '" +:+ key +:+ "' already exists. Use --force to overwrite."
    +:+ String LF "".

Definition msg_key_not_found (key : string) : string :=
  "Error: Key '" +:+ key +:+ "' not found." +:+ String LF "".

Definition msg_old_key_not_found (old_key : string) : string :=
  "Error: Old key '" +:+ old_key +:+ "' not found." +:+ String LF "".

Definition msg_new_key_exists (new_key : string) : string :=
  "Error: New key '" +:+ new_key +:+ "' already exists. Use --force to overwrite."
    +:+ String LF "".

Definition msg_invalid_line (line_num : nat) (input_file_path line : string) : string :=
  "Warning: Line " +:+ of_nat line_num +:+ " in '" +:+ input_file_path
    +:+ "' has invalid format. Skipping: '" +:+ line +:+ "'" +:+ String LF "".

Definition msg_restored (count : nat) (input_file_path : string) : string :=
  "Successfully restored " +:+ of_nat count +:+ " key-value pairs from '"
    +:+ input_file_path +:+ "'." +:+ String LF "".

Definition msg_input_not_found (input_file_path : string) : string :=
  "Error: Input file '" +:+ input_file_path +:+ "' not found." +:+ String LF "".

(** *** Operations *)

(** [BDBTool.set]: the resulting object and the returned flag. *)
Definition set (st : t) (key value : string) (force : bool) : t * bool :=
  if negb force && db_has key st then
    (write_stderr (msg_key_exists key) st, false)
  else
    let normalized_value := normalize value in
    (db_sync (db_put key normalized_value st), true).

(** [BDBTool.get]: [None] when the key is absent. *)
Definition get (st : t) (key : string) : option string :=
  match db st !! key with
  | None => None
  | Some value => Some (normalize value)
  end.

(** [BDBTool.delete] *)
Definition delete (st : t) (key : string) : t * bool :=
  if negb (db_has key st) then
    (write_stderr (msg_key_not_found key) st, false)
  else
    (db_sync (db_del key st), true).

(** [BDBTool.rename].  The membership test on [old_key] and the later read
    [self.db[old_key_bin]] are one lookup here. *)
Definition rename (st : t) (old_key new_key : string) (force : bool) : t * bool :=
  match db st !! old_key with
  | None => (write_stderr (msg_old_key_not_found old_key) st, false)
  | Some value_bin =>
      if negb force && db_has new_key st then
        (write_stderr (msg_new_key_exists new_key) st, false)
      else
        (db_sync (db_del old_key (db_put new_key value_bin st)), true)
  end.

(** One record of the transfer format, as [dump] prints it (without the
    line terminator that [print] adds). *)
Definition dump_line (kv : string * string) : string :=
  fst kv +:+ String TAB (normalize (snd kv)).

(** What [print] writes for one record: the line and its terminator. *)
Definition printed (kv : string * string) : string :=
  dump_line kv +:+ String LF "".

(** [BDBTool.dump].  [items] is [self.db.items()]: the engine decides in
    which order it enumerates a map. *)
Definition dump (items : gmap string string → list (string * string)) (st : t)
    : t * bool :=
  (foldl (λ acc kv, print (dump_line kv) acc) st (items (db st)), true).

(** The body of the loop of [restore] on line [line_num]. *)
Definition restore_line (input_file_path : string) (force : bool)
    (line_num : nat) (line : string) (acc : t * nat) : t * nat :=
  let '(st, count) := acc in
  let line := rstrip LF line in
  match line with
  | EmptyString => (st, count)
  | _ =>
      match split1 TAB line with
      | [input_key; input_value] =>
          let '(st', ok) := set st input_key input_value force in
          (st', if ok then S count else count)
      | _ => (write_stderr (msg_invalid_line line_num input_file_path line) st, count)
      end
  end.

(** [for line_num, line in enumerate(f, line_num)] *)
Fixpoint restore_loop (input_file_path : string) (force : bool)
    (line_num : nat) (f : list string) (acc : t * nat) : t * nat :=
  match f with
  | [] => acc
  | line :: f' =>
      restore_loop input_file_path force (S line_num) f'
        (restore_line input_file_path force line_num line acc)
  end.

(** [BDBTool.restore].  [fs] gives the content of the files that exist. *)
Definition restore (fs : gmap string string) (st : t)
    (input_file_path : string) (force : bool) : t * bool :=
  match fs !! input_file_path with
  | None => (write_stderr (msg_input_not_found input_file_path) st, false)
  | Some content =>
      let '(st', count) :=
        restore_loop input_file_path force 1
          (lines (universal_newlines content)) (st, 0) in
      (write_stderr (msg_restored count input_file_path) st', true)
  end.

(** The text that reaches standard output. *)
Definition stdout_text (st : t) : string := foldr String.append "" (stdout st).

End BDBTool.

(** ** The vocabulary of the specification *)

Module Spec.

Import PyStr.

(** The value [v] "with [\r] removed and [\n] replaced by a single space",
    read off the sentence in one pass over [v]. *)
Fixpoint one_line (v : string) : string :=
  match v with
  | EmptyString => EmptyString
  | String a v' =>
      if Ascii.eqb a CR then one_line v'
      else if Ascii.eqb a LF then String SP (one_line v')
      else String a (one_line v')
  end.

(** The mutating operations of section 5: [Set], [Delete], [Rename] and one
    line of [Restore]. *)
Inductive mutation :=
  | MSet (key value : string) (force : bool)
  | MDelete (key : string)
  | MRename (old_key new_key : string) (force : bool)
  | MRestoreLine (input_file_path : string) (force : bool) (line_num : nat)
      (line : string).

(** Running a mutation; the flag says whether it succeeded, which for a
    line of [Restore] means that it was counted. *)
Definition run (m : mutation) (st : BDBTool.t) : BDBTool.t * bool :=
  match m with
  | MSet key value force => BDBTool.set st key value force
  | MDelete key => BDBTool.delete st key
  | MRename old_key new_key force => BDBTool.rename st old_key new_key force
  | MRestoreLine path force line_num line =>
      let '(st', count) := BDBTool.restore_line path force line_num line (st, 0) in
      (st', bool_decide (count = 1))
  end.

(** A key that the line-oriented transfer format can carry: no tab, no
    line feed, no carriage return. *)
Definition transferable (key : string) : Prop :=
  mem TAB key = false ∧ mem LF key = false ∧ mem CR key = false.

#[global] Instance transferable_dec key : Decision (transferable key).
Proof. unfold transferable. apply _. Defined.

(** A value that sits on one line: no carriage return, no line feed. *)
Definition single_line (v : string) : Prop :=
  mem CR v = false ∧ mem LF v = false.

#[global] Instance single_line_dec v : Decision (single_line v).
Proof. unfold single_line. apply _. Defined.

(** A store all of whose values sit on one line. *)
Definition normalized_store (st : BDBTool.t) : Prop :=
  map_Forall (λ _ v, single_line v) (BDBTool.db st).

End Spec.

(** ** The loop of restore, seen from the database *)

Module Transfer.

Import PyStr.

(** What one line of the input does to the database: a line with a tab
    binds the text before the first tab to the normalized text after it,
    unless the key is taken and [force] is off; any other line does
    nothing. *)
Definition line_effect (force : bool) (line : string)
    (m : gmap string string) : gmap string string :=
  match cut TAB (rstrip LF line) with
  | (key, Some value) =>
      if negb force && bool_decide (is_Some (m !! key)) then m
      else <[key := BDBTool.normalize value]> m
  | (_, None) => m
  end.

(** The line is a record: it has a tab. *)
Definition is_record (line : string) : bool := mem TAB line.

End Transfer.

(** ** The command line: [main] and [close] *)

Module CLI.

Import PyStr.

(** The subcommands, with the arguments [argparse] hands over. *)
Inductive command :=
  | CmdSet (KEY VALUE : string)
  | CmdGet (KEY : string)
  | CmdDelete (KEY : string)
  | CmdRename (OLD_KEY NEW_KEY : string)
  | CmdDump
  | CmdRestore (INPUT_FILE : string).

(** [--db PATH] or [--temp-db]: one of the two, never both. *)
Inductive database :=
  | Db (path : string)
  | TempDb.

Record args := mk_args {
  database_of : database;
  force : bool;
  command_of : command;
}.

(** What a process finds and leaves: the database files, each with the
    map it holds, and the text files. *)
Record world := mk_world {
  db_files : gmap string (gmap string string);
  text_files : gmap string string;
}.

(** [s.endswith(c)] and [s.startswith(c)] *)
Fixpoint ends_with (c : ascii) (s : string) : bool :=
  match s with
  | EmptyString => false
  | String a EmptyString => Ascii.eqb a c
  | String _ s' => ends_with c s'
  end.

Definition starts_with (c : ascii) (s : string) : bool :=
  match s with
  | EmptyString => false
  | String a _ => Ascii.eqb a c
  end.

(** [os.path.join(a, b)] on POSIX. *)
Definition path_join (a b : string) : string :=
  if starts_with "/" b then b
  else if bool_decide (a = "") || ends_with "/" a then a +:+ b
  else a +:+ "/" +:+ b.

Definition msg_temp_db (temp_db_dir db_file_path : string) : string :=
  "Using temporary database in: " +:+ temp_db_dir +:+ " (base name: "
    +:+ db_file_path +:+ ")" +:+ String LF "".

(** The object that [with BDBTool(db_file_path) as tool] works on.  Mode
    ["c"] creates the file when it is missing; the scratch directory that
    [mkdtemp] returns is new, so a temporary database starts empty, after the
    note about it on the error stream. *)
Definition open_tool (temp_db_dir : string) (d : database) (w : world)
    : BDBTool.t :=
  match d with
  | Db path => BDBTool.opened (default ∅ (db_files w !! path))
  | TempDb =>
      BDBTool.write_stderr
        (msg_temp_db temp_db_dir (path_join temp_db_dir "temp_bdb_base"))
        BDBTool.fresh
  end.

(** The dispatch on [args.command]. *)
Definition execute (items : gmap string string → list (string * string))
    (fs : gmap string string) (force : bool) (c : command) (tool : BDBTool.t)
    : BDBTool.t * bool :=
  match c with
  | CmdSet KEY VALUE => BDBTool.set tool KEY VALUE force
  | CmdGet KEY =>
      match BDBTool.get tool KEY with
      | Some value => (BDBTool.print value tool, true)
      | None => (BDBTool.write_stderr (BDBTool.msg_key_not_found KEY) tool, false)
      end
  | CmdDelete KEY => BDBTool.delete tool KEY
  | CmdRename OLD_KEY NEW_KEY => BDBTool.rename tool OLD_KEY NEW_KEY force
  | CmdDump => BDBTool.dump items tool
  | CmdRestore INPUT_FILE => BDBTool.restore fs tool INPUT_FILE force
  end.

(** What is known once the process has ended. *)
Record outcome := mk_outcome {
  tool_of : BDBTool.t;
  exit_code : nat;
  world_of : world;
}.

(** [main], after the arguments are parsed.  [temp_db_dir] is what
    [mkdtemp] returns.  Of the database the world keeps what [sync] has
    written; a temporary database is removed with its directory. *)
Definition main (items : gmap string string → list (string * string))
    (temp_db_dir : string) (a : args) (w : world) : outcome :=
  let tool := open_tool temp_db_dir (database_of a) w in
  let '(tool', success) :=
    execute items (text_files w) (force a) (command_of a) tool in
  mk_outcome tool'
    (if success then 0 else 1)
    (match database_of a with
     | Db path =>
         mk_world (<[path := BDBTool.disk tool']> (db_files w)) (text_files w)
     | TempDb => w
     end).

(** What a database file holds; a file that does not exist yet holds
    nothing. *)
Definition content (w : world) (path : string) : gmap string string :=
  default ∅ (db_files w !! path).



End CLI.

(** ** Sanity checks of the primitives *)

Example replace_ex : PyStr.replace PyStr.CR "" ("a" +:+ String PyStr.CR ("b" +:+ String PyStr.CR "")) = "ab".
Proof. reflexivity. Qed.

Example rstrip_ex : PyStr.rstrip PyStr.LF (String PyStr.LF ("a" +:+ String PyStr.LF (String PyStr.LF ""))) = String PyStr.LF "a".
Proof. reflexivity. Qed.

Example split1_ex : PyStr.split1 PyStr.TAB ("k" +:+ String PyStr.TAB ("v" +:+ String PyStr.TAB "w"))
  = ["k"; "v" +:+ String PyStr.TAB "w"].
Proof. reflexivity. Qed.

Example lines_ex :
  PyStr.lines (PyStr.universal_newlines
    ("a" +:+ String PyStr.CR (String PyStr.LF ("b" +:+ String PyStr.CR "c"))))
  = ["a" +:+ String PyStr.LF ""; "b" +:+ String PyStr.LF ""; "c"].
Proof. reflexivity. Qed.

Example of_nat_ex : PyStr.of_nat 12 = "12".
Proof. vm_compute. reflexivity. Qed.


(** ** Facts about the string primitives *)

Module PyStrFacts.

Import PyStr.

Ltac ascii_cases a c :=
  let E := fresh "E" in
  destruct (Ascii.eqb a c) eqn:E;
  [apply Ascii.eqb_eq in E; try subst a | idtac].

Lemma append_cons a (s1 s2 : string) : String a s1 +:+ s2 = String a (s1 +:+ s2).
Proof. reflexivity. Qed.

Lemma append_nil_l (s : string) : "" +:+ s = s.
Proof. reflexivity. Qed.

Lemma append_assoc (s1 s2 s3 : string) : (s1 +:+ s2) +:+ s3 = s1 +:+ (s2 +:+ s3).
Proof.
  induction s1 as [|a s1 IH]; [done|]. rewrite !append_cons. by rewrite IH.
Qed.

Lemma mem_app c s1 s2 : mem c (s1 +:+ s2) = mem c s1 || mem c s2.
Proof.
  induction s1 as [|a s1 IH]; simpl; [done|].
  rewrite IH. by rewrite orb_assoc.
Qed.

Lemma replace_absent c r s : mem c s = false → replace c r s = s.
Proof.
  induction s as [|a s IH]; simpl; [done|].
  intros [Ha Hs]%orb_false_iff. rewrite Ha. by rewrite IH.
Qed.

Lemma mem_replace_same c r s : mem c r = false → mem c (replace c r s) = false.
Proof.
  intros Hr. induction s as [|a s IH]; simpl; [done|].
  destruct (Ascii.eqb a c) eqn:E.
  - by rewrite mem_app, Hr, IH.
  - simpl. by rewrite E, IH.
Qed.

Lemma mem_replace_other d c r s :
  mem d r = false → mem d s = false → mem d (replace c r s) = false.
Proof.
  intros Hr. induction s as [|a s IH]; simpl; [done|].
  intros [Ha Hs]%orb_false_iff.
  destruct (Ascii.eqb a c).
  - by rewrite mem_app, Hr, IH.
  - simpl. by rewrite Ha, IH.
Qed.

Lemma rstrip_absent c s : mem c s = false → rstrip c s = s.
Proof.
  induction s as [|a s IH]; simpl; [done|].
  intros [Ha Hs]%orb_false_iff. rewrite (IH Hs), Ha. by destruct s.
Qed.

Lemma rstrip_terminated c s :
  mem c s = false → rstrip c (s +:+ String c "") = s.
Proof.
  induction s as [|a s IH]; simpl.
  - by rewrite Ascii.eqb_refl.
  - intros [Ha Hs]%orb_false_iff. rewrite (IH Hs), Ha. by destruct s.
Qed.

Lemma rstrip_mem c d s : Ascii.eqb d c = false → mem d (rstrip c s) = mem d s.
Proof.
  intros Hdc. induction s as [|a s IH]; simpl; [done|].
  destruct (rstrip c s) as [|b t] eqn:Es.
  - rewrite <- IH. simpl. rewrite orb_false_r.
    ascii_cases a c; simpl; [|by rewrite orb_false_r].
    by rewrite Ascii.eqb_sym, Hdc.
  - simpl. rewrite <- IH. done.
Qed.

Lemma cut_absent c s : mem c s = false → cut c s = (s, None).
Proof.
  induction s as [|a s IH]; simpl; [done|].
  intros [Ha Hs]%orb_false_iff. by rewrite Ha, (IH Hs).
Qed.

Lemma cut_first c k v : mem c k = false → cut c (k +:+ String c v) = (k, Some v).
Proof.
  induction k as [|a k IH]; simpl.
  - by rewrite Ascii.eqb_refl.
  - intros [Ha Hk]%orb_false_iff. by rewrite Ha, (IH Hk).
Qed.

Lemma cut_Some_inv c s k v :
  cut c s = (k, Some v) → s = k +:+ String c v ∧ mem c k = false.
Proof.
  revert k. induction s as [|a s IH]; simpl; intros k; [done|].
  destruct (Ascii.eqb a c) eqn:E.
  - apply Ascii.eqb_eq in E. subst a. by intros [= <- <-].
  - destruct (cut c s) as [h t]. intros [= <- ->].
    destruct (IH h eq_refl) as [-> Hh]. simpl. by rewrite E, Hh.
Qed.

Lemma cut_None_inv c s k : cut c s = (k, None) → k = s ∧ mem c s = false.
Proof.
  revert k. induction s as [|a s IH]; simpl; intros k; [by intros [= <-]|].
  destruct (Ascii.eqb a c) eqn:E; [done|].
  destruct (cut c s) as [h t]. intros [= <- ->].
  destruct (IH h eq_refl) as [-> Hh]. by rewrite Hh.
Qed.

Lemma cut_mem c s : mem c s = bool_decide (is_Some (snd (cut c s))).
Proof.
  induction s as [|a s IH]; simpl; [done|].
  destruct (Ascii.eqb a c); simpl; [done|].
  rewrite IH. by destruct (cut c s) as [h [t|]].
Qed.

Lemma universal_newlines_absent s : mem CR s = false → universal_newlines s = s.
Proof.
  induction s as [|a s IH]; simpl; [done|].
  intros [Ha Hs]%orb_false_iff. by rewrite Ha, (IH Hs).
Qed.

Lemma lines_terminated l rest :
  mem LF l = false →
  lines (l +:+ String LF rest) = (l +:+ String LF "") :: lines rest.
Proof.
  induction l as [|a l IH]; simpl; [done|].
  intros [Ha Hl]%orb_false_iff. by rewrite Ha, (IH Hl).
Qed.

Lemma count_rstrip c d s :
  Ascii.eqb d c = false → count d (rstrip c s) = count d s.
Proof.
  intros Hdc. induction s as [|a s IH]; simpl; [done|].
  destruct (rstrip c s) as [|b t] eqn:Es.
  - rewrite <- IH. simpl. rewrite Nat.add_0_r.
    ascii_cases a c; simpl; [|lia].
    by rewrite Ascii.eqb_sym, Hdc.
  - simpl. rewrite <- IH. done.
Qed.

Lemma cut_present c s : mem c s = true → ∃ k v, cut c s = (k, Some v).
Proof.
  induction s as [|a s IH]; simpl; [done|].
  destruct (Ascii.eqb a c); simpl; [by eauto|].
  intros (k & v & ->)%IH. by eauto.
Qed.

Lemma cut_count c s k v : cut c s = (k, Some v) → count c s = S (count c v).
Proof.
  revert k. induction s as [|a s IH]; simpl; intros k; [done|].
  destruct (Ascii.eqb a c); [by intros [= <- <-]|].
  destruct (cut c s) as [h t]. intros [= <- ->]. by rewrite (IH h).
Qed.

Lemma mem_count c s : mem c s = true ↔ 0 < count c s.
Proof.
  induction s as [|a s IH]; simpl; [split; [done|lia]|].
  destruct (Ascii.eqb a c); simpl; [split; [lia|done]|done].
Qed.

End PyStrFacts.

(** ** Normalization *)

Module NormalizeFacts.

Import PyStr PyStrFacts.

Lemma normalize_no_LF v : mem LF (BDBTool.normalize v) = false.
Proof. unfold BDBTool.normalize. by apply mem_replace_same. Qed.

Lemma normalize_no_CR v : mem CR (BDBTool.normalize v) = false.
Proof.
  unfold BDBTool.normalize. apply mem_replace_other; [done|].
  by apply mem_replace_same.
Qed.

Lemma normalize_absent v :
  mem CR v = false → mem LF v = false → BDBTool.normalize v = v.
Proof.
  intros Hcr Hlf. unfold BDBTool.normalize.
  rewrite (replace_absent CR); [|done]. by apply replace_absent.
Qed.

Lemma normalize_idem v :
  BDBTool.normalize (BDBTool.normalize v) = BDBTool.normalize v.
Proof. apply normalize_absent; [apply normalize_no_CR | apply normalize_no_LF]. Qed.

(** The two [replace] calls of the program compute the one-pass reading of
    the specification. *)
Lemma normalize_one_line v : BDBTool.normalize v = Spec.one_line v.
Proof.
  unfold BDBTool.normalize. induction v as [|a v IH]; simpl; [done|].
  destruct (Ascii.eqb a CR) eqn:Ecr; simpl; [done|].
  destruct (Ascii.eqb a LF) eqn:Elf; simpl; by rewrite IH.
Qed.

Lemma normalize_mem_TAB v : mem TAB (BDBTool.normalize v) = mem TAB v.
Proof.
  rewrite normalize_one_line. induction v as [|a v IH]; simpl; [done|].
  destruct (Ascii.eqb a CR) eqn:Ecr.
  { apply Ascii.eqb_eq in Ecr. by subst a. }
  destruct (Ascii.eqb a LF) eqn:Elf; simpl; rewrite IH; [|done].
  apply Ascii.eqb_eq in Elf. by subst a.
Qed.

End NormalizeFacts.

(** ** Single-key operations *)

Section Store.

Import PyStr PyStrFacts NormalizeFacts.

Implicit Types (st : BDBTool.t) (k key a b : string) (v value : string).

Lemma db_has_true st k : BDBTool.db_has k st = true ↔ is_Some (BDBTool.db st !! k).
Proof. unfold BDBTool.db_has. apply bool_decide_eq_true. Qed.

Lemma db_has_false st k : BDBTool.db_has k st = false ↔ BDBTool.db st !! k = None.
Proof.
  unfold BDBTool.db_has. rewrite bool_decide_eq_false.
  by rewrite eq_None_not_Some.
Qed.

(** What a successful [set] leaves behind. *)
Lemma set_success st k v force st' :
  BDBTool.set st k v force = (st', true) →
  st' = BDBTool.db_sync (BDBTool.db_put k (BDBTool.normalize v) st).
Proof.
  unfold BDBTool.set.
  destruct (negb force && BDBTool.db_has k st); [done|]. by intros [= <-].
Qed.

(** [set] on a key that is absent, or with [force], goes through. *)
Lemma set_applies st k v force :
  force = true ∨ BDBTool.db st !! k = None →
  BDBTool.set st k v force
  = (BDBTool.db_sync (BDBTool.db_put k (BDBTool.normalize v) st), true).
Proof.
  unfold BDBTool.set. intros [-> | Hk]; [done|].
  apply db_has_false in Hk. rewrite Hk. by rewrite andb_false_r.
Qed.

(** [set] without [force] on a key that is present is refused. *)
Lemma set_refused st k v :
  is_Some (BDBTool.db st !! k) →
  BDBTool.set st k v false
  = (BDBTool.write_stderr (BDBTool.msg_key_exists k) st, false).
Proof. unfold BDBTool.set. intros Hk%db_has_true. by rewrite Hk. Qed.

(** C2: when [set] without [force] succeeds, [get] on the same key returns
    the value with every carriage return removed and every line feed
    replaced by one space. *)
Theorem get_after_set st k v st' :
  BDBTool.set st k v false = (st', true) →
  BDBTool.get st' k = Some (Spec.one_line v).
Proof.
  intros ->%set_success. unfold BDBTool.get. simpl.
  rewrite lookup_insert_eq. by rewrite normalize_idem, normalize_one_line.
Qed.

Lemma get_after_set_witness :
  BDBTool.get (fst (BDBTool.set BDBTool.fresh "foo" ("b" +:+ String CR (String LF "r")) false)) "foo"
  = Some "b r".
Proof.
  apply (get_after_set BDBTool.fresh "foo" ("b" +:+ String CR (String LF "r"))).
  reflexivity.
Defined.

(** C3: [set] without [force] on a key that is present returns failure,
    reports that the key already exists, and leaves the store (both the open
    database and the file) and the answer of [get] as they were. *)
Theorem set_existing_without_force st k v :
  is_Some (BDBTool.db st !! k) →
  let r := BDBTool.set st k v false in
  snd r = false
  ∧ BDBTool.db (fst r) = BDBTool.db st
  ∧ BDBTool.disk (fst r) = BDBTool.disk st
  ∧ BDBTool.stderr (fst r) = (BDBTool.stderr st ++ [BDBTool.msg_key_exists k])%list
  ∧ (∀ k', BDBTool.get (fst r) k' = BDBTool.get st k').
Proof. intros Hk. simpl. by rewrite (set_refused _ _ _ Hk). Qed.

Lemma set_existing_without_force_witness :
  let st := BDBTool.opened {[ "foo" := "bar" ]} in
  snd (BDBTool.set st "foo" "baz" false) = false
  ∧ BDBTool.get (fst (BDBTool.set st "foo" "baz" false)) "foo" = Some "bar".
Proof.
  pose proof (set_existing_without_force
    (BDBTool.opened {[ "foo" := "bar" ]}) "foo" "baz") as H.
  simpl in H. destruct H as (H1 & _ & _ & _ & H5).
  { rewrite lookup_singleton_eq. by eexists. }
  split; [exact H1|]. rewrite H5. reflexivity.
Defined.

(** What a successful [rename] leaves behind. *)
Lemma rename_applies st a b force value_bin :
  BDBTool.db st !! a = Some value_bin →
  force = true ∨ BDBTool.db st !! b = None →
  BDBTool.rename st a b force
  = (BDBTool.db_sync (BDBTool.db_del a (BDBTool.db_put b value_bin st)), true).
Proof.
  unfold BDBTool.rename. intros -> [-> | Hb]; [done|].
  apply db_has_false in Hb. rewrite Hb. by rewrite andb_false_r.
Qed.

Lemma rename_success st a b force st' :
  BDBTool.rename st a b force = (st', true) →
  ∃ value_bin, BDBTool.db st !! a = Some value_bin
    ∧ st' = BDBTool.db_sync (BDBTool.db_del a (BDBTool.db_put b value_bin st)).
Proof.
  unfold BDBTool.rename. destruct (BDBTool.db st !! a) as [w|]; [|done].
  destruct (negb force && BDBTool.db_has b st); [done|].
  intros [= <-]. by exists w.
Qed.

Lemma delete_success st k st' :
  BDBTool.delete st k = (st', true) →
  st' = BDBTool.db_sync (BDBTool.db_del k st).
Proof.
  unfold BDBTool.delete. destruct (negb (BDBTool.db_has k st)); [done|].
  by intros [= <-].
Qed.

(** C4, as stated, at [a = b]: the rename succeeds and [get b] is not the
    former value of [a]. *)
Lemma rename_onto_itself_counterexample :
  let st := BDBTool.opened {[ "a" := "v" ]} in
  let r := BDBTool.rename st "a" "a" true in
  is_Some (BDBTool.db st !! "a")
  ∧ snd r = true
  ∧ BDBTool.get st "a" = Some "v"
  ∧ BDBTool.get (fst r) "a" ≠ BDBTool.get st "a".
Proof. cbv zeta. split; [by eexists|]. split; [|split]; vm_compute; done. Qed.

(** C4 (amended): for two different keys [a] and [b] that are both present,
    [rename a b] with [force] succeeds; afterwards [get b] returns what
    [get a] returned before and [get a] finds nothing. *)
Theorem rename_force_onto_existing st a b :
  a ≠ b →
  is_Some (BDBTool.db st !! a) →
  is_Some (BDBTool.db st !! b) →
  let r := BDBTool.rename st a b true in
  snd r = true
  ∧ BDBTool.get (fst r) b = BDBTool.get st a
  ∧ is_Some (BDBTool.get (fst r) b)
  ∧ BDBTool.get (fst r) a = None.
Proof.
  intros Hab [w Ha] _. simpl.
  rewrite (rename_applies st a b true w Ha); [|by left]. simpl.
  unfold BDBTool.get. simpl.
  rewrite lookup_delete_eq, lookup_delete_ne, lookup_insert_eq, Ha by done.
  by eauto.
Qed.

Lemma rename_force_onto_existing_witness :
  let st := BDBTool.opened (<[ "k1" := "v1" ]> {[ "k2" := "v2" ]}) in
  BDBTool.get (fst (BDBTool.rename st "k1" "k2" true)) "k2" = Some "v1"
  ∧ BDBTool.get (fst (BDBTool.rename st "k1" "k2" true)) "k1" = None.
Proof.
  pose proof (rename_force_onto_existing
    (BDBTool.opened (<[ "k1" := "v1" ]> {[ "k2" := "v2" ]})) "k1" "k2") as H.
  simpl in H. destruct H as (_ & H2 & _ & H4).
  { done. }
  { vm_compute. by eexists. }
  { vm_compute. by eexists. }
  split; [|exact H4]. rewrite H2. reflexivity.
Defined.

(** C10: renaming a present key to itself with [force] reports success;
    the value is written back under the key, then the key is deleted, so
    the key is gone and [get] finds nothing. *)
Theorem rename_force_same_key st k value_bin :
  BDBTool.db st !! k = Some value_bin →
  BDBTool.rename st k k true
  = (BDBTool.db_sync (BDBTool.db_del k (BDBTool.db_put k value_bin st)), true)
  ∧ BDBTool.db (fst (BDBTool.rename st k k true)) = delete k (BDBTool.db st)
  ∧ BDBTool.get (fst (BDBTool.rename st k k true)) k = None.
Proof.
  intros Hk. rewrite (rename_applies st k k true value_bin Hk); [|by left].
  split; [done|]. simpl. split.
  - by rewrite delete_insert_eq.
  - unfold BDBTool.get. simpl. by rewrite lookup_delete_eq.
Qed.

Lemma rename_force_same_key_witness :
  BDBTool.get
    (fst (BDBTool.rename (BDBTool.opened {[ "a" := "v" ]}) "a" "a" true)) "a"
  = None.
Proof.
  apply (rename_force_same_key (BDBTool.opened {[ "a" := "v" ]}) "a" "v").
  reflexivity.
Defined.

End Store.

(** ** Restore, line by line *)

Section RestoreLine.

Import PyStr PyStrFacts NormalizeFacts.

Implicit Types (st : BDBTool.t) (key value line path : string)
  (force : bool) (count line_num : nat).

(** The three ways a line can go. *)
Lemma restore_line_blank path force line_num line st count :
  rstrip LF line = "" →
  BDBTool.restore_line path force line_num line (st, count) = (st, count).
Proof. unfold BDBTool.restore_line. by intros ->. Qed.

Lemma restore_line_record path force line_num line st count key value :
  rstrip LF line = key +:+ String TAB value →
  mem TAB key = false →
  BDBTool.restore_line path force line_num line (st, count)
  = (fst (BDBTool.set st key value force),
     if snd (BDBTool.set st key value force) then S count else count).
Proof.
  unfold BDBTool.restore_line. intros -> Hkey.
  unfold split1. rewrite (cut_first _ _ _ Hkey).
  destruct (BDBTool.set st key value force) as [st' ok]. simpl.
  by destruct key.
Qed.

Lemma restore_line_no_tab path force line_num line st count :
  rstrip LF line ≠ "" →
  mem TAB line = false →
  BDBTool.restore_line path force line_num line (st, count)
  = (BDBTool.write_stderr
       (BDBTool.msg_invalid_line line_num path (rstrip LF line)) st, count).
Proof.
  unfold BDBTool.restore_line. intros Hne Htab.
  assert (mem TAB (rstrip LF line) = false) as Hs
    by by rewrite rstrip_mem.
  unfold split1. rewrite (cut_absent _ _ Hs).
  by destruct (rstrip LF line).
Qed.

(** A line that contains a tab splits at the first one. *)
Lemma tab_line_splits line :
  mem TAB line = true →
  ∃ key value, rstrip LF line = key +:+ String TAB value
    ∧ mem TAB key = false
    ∧ count TAB line = S (count TAB value).
Proof.
  intros Hline.
  assert (mem TAB (rstrip LF line) = true) as Hs by by rewrite rstrip_mem.
  destruct (cut_present _ _ Hs) as (key & value & Hcut).
  exists key, value. destruct (cut_Some_inv _ _ _ _ Hcut) as [-> Hkey].
  split; [done|]. split; [done|].
  rewrite <- (count_rstrip LF TAB line) by done. by apply (cut_count _ _ key).
Qed.

(** The loop goes on after every line, whatever became of it. *)
Lemma restore_loop_cons path force line_num line rest acc :
  BDBTool.restore_loop path force line_num (line :: rest) acc
  = BDBTool.restore_loop path force (S line_num) rest
      (BDBTool.restore_line path force line_num line acc).
Proof. done. Qed.

Lemma restore_loop_app path force line_num pre post acc :
  BDBTool.restore_loop path force line_num (pre ++ post) acc
  = BDBTool.restore_loop path force (line_num + length pre) post
      (BDBTool.restore_loop path force line_num pre acc).
Proof.
  revert line_num acc. induction pre as [|l pre IH]; intros line_num acc; simpl.
  - by rewrite Nat.add_0_r.
  - rewrite IH. by rewrite Nat.add_succ_r.
Qed.

(** The scenario of [test_restore_invalid_format] in the repository's tests:
    six lines, three of them restored, the one with three fields among
    them, and warnings for lines 2 and 5 only. *)
Example test_restore_invalid_format :
  let text := foldr String.append ""
    [ "key1" +:+ String TAB ("value1" +:+ String LF "");
      "invalid_line_no_tab" +:+ String LF "";
      "key2" +:+ String TAB ("value2" +:+ String LF "");
      String LF "";
      "key_only" +:+ String LF "";
      "another_bad_line_too_many" +:+ String TAB
        ("parts" +:+ String TAB ("more" +:+ String LF "")) ] in
  let r := BDBTool.restore {[ "bad_backup.txt" := text ]} BDBTool.fresh
             "bad_backup.txt" false in
  snd r = true
  ∧ BDBTool.stderr (fst r)
    = [ BDBTool.msg_invalid_line 2 "bad_backup.txt" "invalid_line_no_tab";
        BDBTool.msg_invalid_line 5 "bad_backup.txt" "key_only";
        BDBTool.msg_restored 3 "bad_backup.txt" ]
  ∧ BDBTool.get (fst r) "another_bad_line_too_many"
    = Some ("parts" +:+ String TAB "more").
Proof. cbv zeta. repeat split; vm_compute; done. Qed.

(** C6, as stated, at a line with two tabs: the line is not skipped, it
    stores the text after the first tab under the key before it, is counted,
    and draws no warning. *)
Lemma restore_line_two_tabs_applied :
  let line := "a" +:+ String TAB ("b" +:+ String TAB ("c" +:+ String LF "")) in
  let r := BDBTool.restore_line "in.txt" false 1 line (BDBTool.fresh, 0) in
  count TAB line = 2
  ∧ snd r = 1
  ∧ BDBTool.get (fst r) "a" = Some ("b" +:+ String TAB "c")
  ∧ BDBTool.stderr (fst r) = [].
Proof. cbv zeta. repeat split; vm_compute; done. Qed.

(** C6 (amended): a line of the input with more than one tab is a valid
    record.  It is split at its first tab; the key is the text before it, the
    value is all the text after it, further tabs included; the pair goes
    through [set] with the [force] of the restore, is counted when [set]
    succeeds, and the restore goes on with the next line. *)
Theorem restore_line_with_many_tabs path force line_num line rest st count :
  1 < PyStr.count TAB line →
  ∃ key value,
    rstrip LF line = key +:+ String TAB value
    ∧ mem TAB key = false
    ∧ mem TAB value = true
    ∧ BDBTool.restore_loop path force line_num (line :: rest) (st, count)
      = BDBTool.restore_loop path force (S line_num) rest
          (fst (BDBTool.set st key value force),
           if snd (BDBTool.set st key value force) then S count else count).
Proof.
  intros Hn.
  destruct (tab_line_splits line) as (key & value & Hs & Hkey & Hc).
  { apply mem_count. lia. }
  exists key, value. split; [done|]. split; [done|]. split.
  { apply mem_count. lia. }
  rewrite restore_loop_cons. f_equal. by apply restore_line_record.
Qed.

Lemma restore_line_with_many_tabs_witness :
  ∃ key value,
    rstrip LF ("a" +:+ String TAB ("b" +:+ String TAB ("c" +:+ String LF "")))
      = key +:+ String TAB value
    ∧ mem TAB key = false
    ∧ mem TAB value = true
    ∧ BDBTool.restore_loop "in.txt" false 1
        ["a" +:+ String TAB ("b" +:+ String TAB ("c" +:+ String LF ""))]
        (BDBTool.fresh, 0)
      = BDBTool.restore_loop "in.txt" false 2 []
          (fst (BDBTool.set BDBTool.fresh key value false),
           if snd (BDBTool.set BDBTool.fresh key value false) then 1 else 0).
Proof.
  apply (restore_line_with_many_tabs "in.txt" false 1
    ("a" +:+ String TAB ("b" +:+ String TAB ("c" +:+ String LF ""))) []
    BDBTool.fresh 0).
  vm_compute. lia.
Defined.

(** C7, as stated, at a line whose key field is empty: the line is
    applied under the empty key, counted, and draws no warning. *)
Lemma restore_line_empty_key_applied :
  let line := String TAB ("v" +:+ String LF "") in
  let r := BDBTool.restore_line "in.txt" false 1 line (BDBTool.fresh, 0) in
  split1 TAB (rstrip LF line) = [""; "v"]
  ∧ snd r = 1
  ∧ BDBTool.get (fst r) "" = Some "v"
  ∧ BDBTool.stderr (fst r) = [].
Proof. cbv zeta. repeat split; vm_compute; done. Qed.

(** C7 (amended): take the line that follows the lines [pre] of the input,
    non-empty once its line terminator is stripped.  If it contains a tab,
    splitting it at the first tab yields exactly two parts, a key that may
    be empty and a value, which go through [set]; the line is counted
    exactly when [set] succeeds and no format warning is written.  If it
    contains no tab, a warning carrying its 1-based number, the input path
    and its text is written, the store is left alone and the line is not
    counted. *)
Theorem restore_line_classified path force pre line st0 :
  rstrip LF line ≠ "" →
  let before := BDBTool.restore_loop path force 1 pre (st0, 0) in
  let after := BDBTool.restore_loop path force 1 (pre ++ [line]) (st0, 0) in
  if mem TAB line then
    ∃ key value,
      split1 TAB (rstrip LF line) = [key; value]
      ∧ rstrip LF line = key +:+ String TAB value
      ∧ mem TAB key = false
      ∧ after = (fst (BDBTool.set (fst before) key value force),
                 if snd (BDBTool.set (fst before) key value force)
                 then S (snd before) else snd before)
  else
    length (split1 TAB (rstrip LF line)) ≠ 2
    ∧ after = (BDBTool.write_stderr
                 (BDBTool.msg_invalid_line (S (length pre)) path (rstrip LF line))
                 (fst before), snd before)
    ∧ BDBTool.db (fst after) = BDBTool.db (fst before)
    ∧ snd after = snd before.
Proof.
  intros Hne. cbv zeta.
  rewrite restore_loop_app, restore_loop_cons. cbn [BDBTool.restore_loop].
  destruct (BDBTool.restore_loop path force 1 pre (st0, 0)) as [st count].
  cbn [fst snd]. change (1 + length pre) with (S (length pre)).
  destruct (mem TAB line) eqn:Htab.
  - destruct (tab_line_splits line Htab) as (key & value & Hs & Hkey & _).
    exists key, value. split.
    { unfold split1. by rewrite Hs, (cut_first _ _ _ Hkey). }
    split; [done|]. split; [done|]. by apply restore_line_record.
  - rewrite (restore_line_no_tab _ _ _ _ _ _ Hne Htab). split; [|done].
    unfold split1. rewrite cut_absent; [simpl; lia|]. by rewrite rstrip_mem.
Qed.

Lemma restore_line_classified_witness :
  let st := fst (BDBTool.restore_loop "in.txt" false 1
                   ["k1" +:+ String TAB ("v1" +:+ String LF "")]
                   (BDBTool.fresh, 0)) in
  BDBTool.restore_loop "in.txt" false 1
    ["k1" +:+ String TAB ("v1" +:+ String LF ""); "badline" +:+ String LF ""]
    (BDBTool.fresh, 0)
  = (BDBTool.write_stderr (BDBTool.msg_invalid_line 2 "in.txt" "badline") st, 1).
Proof.
  pose proof (restore_line_classified "in.txt" false
    ["k1" +:+ String TAB ("v1" +:+ String LF "")]
    ("badline" +:+ String LF "") BDBTool.fresh) as H.
  destruct H as (_ & H & _); [vm_compute; discriminate|]. exact H.
Defined.

(** C8: the five lines [k1<TAB>v1], [badline], [k2<TAB>v2], an empty line and
    [keyonly].  Exactly the two records [k1] and [k2] are applied; the empty
    line leaves everything as it is; exactly two warnings are written, for
    line 2 ([badline]) and line 5 ([keyonly]).  The same holds when the text
    is read from a file, where [restore] then reports two records. *)
Theorem restore_five_lines path :
  let input :=
    [ "k1" +:+ String TAB ("v1" +:+ String LF "");
      "badline" +:+ String LF "";
      "k2" +:+ String TAB ("v2" +:+ String LF "");
      "";
      "keyonly" +:+ String LF "" ] in
  let text :=
    "k1" +:+ String TAB ("v1" +:+ String LF ("badline" +:+ String LF
      ("k2" +:+ String TAB ("v2" +:+ String LF (String LF
        ("keyonly" +:+ String LF "")))))) in
  let warnings :=
    [ BDBTool.msg_invalid_line 2 path "badline";
      BDBTool.msg_invalid_line 5 path "keyonly" ] in
  let r := BDBTool.restore_loop path false 1 input (BDBTool.fresh, 0) in
  let r' := BDBTool.restore {[ path := text ]} BDBTool.fresh path false in
  snd r = 2
  ∧ BDBTool.db (fst r) = <[ "k1" := "v1" ]> {[ "k2" := "v2" ]}
  ∧ BDBTool.stderr (fst r) = warnings
  ∧ (∀ acc, BDBTool.restore_line path false 4 "" acc = acc)
  ∧ (∀ acc, BDBTool.restore_line path false 4 (String LF "") acc = acc)
  ∧ snd r' = true
  ∧ BDBTool.db (fst r') = BDBTool.db (fst r)
  ∧ BDBTool.stderr (fst r') = (warnings ++ [BDBTool.msg_restored 2 path])%list.
Proof.
  cbv zeta. split; [done|]. split; [by vm_compute|]. split; [done|].
  split; [by intros []|]. split; [by intros []|].
  unfold BDBTool.restore. rewrite lookup_singleton_eq.
  split; [done|]. split; [by vm_compute|]. done.
Qed.

(** C9: during a restore without [force], a well-formed line whose key is
    already present is refused by [set]: the database, the file and the
    answers of [get] stay as they were, the count stays as it was, and the
    loop carries on with the next line. *)
Theorem restore_collision_without_force
    path line_num line rest st count key value :
  rstrip LF line = key +:+ String TAB value →
  mem TAB key = false →
  is_Some (BDBTool.db st !! key) →
  let r := BDBTool.restore_line path false line_num line (st, count) in
  snd r = count
  ∧ BDBTool.db (fst r) = BDBTool.db st
  ∧ BDBTool.disk (fst r) = BDBTool.disk st
  ∧ (∀ k, BDBTool.get (fst r) k = BDBTool.get st k)
  ∧ BDBTool.restore_loop path false line_num (line :: rest) (st, count)
    = BDBTool.restore_loop path false (S line_num) rest
        (BDBTool.write_stderr (BDBTool.msg_key_exists key) st, count).
Proof.
  intros Hs Hkey Hin. cbv zeta. rewrite restore_loop_cons.
  rewrite (restore_line_record _ _ _ _ _ _ _ _ Hs Hkey).
  rewrite (set_refused _ _ _ Hin). done.
Qed.

Lemma restore_collision_without_force_witness :
  let st := BDBTool.opened {[ "k1" := "old" ]} in
  let r := BDBTool.restore_loop "in.txt" false 1
      [ "k1" +:+ String TAB ("new" +:+ String LF "");
        "k2" +:+ String TAB ("v2" +:+ String LF "") ] (st, 0) in
  snd r = 1
  ∧ BDBTool.get (fst r) "k1" = Some "old"
  ∧ BDBTool.get (fst r) "k2" = Some "v2".
Proof.
  pose proof (restore_collision_without_force "in.txt" 1
    ("k1" +:+ String TAB ("new" +:+ String LF ""))
    [ "k2" +:+ String TAB ("v2" +:+ String LF "") ]
    (BDBTool.opened {[ "k1" := "old" ]}) 0 "k1" "new") as H.
  destruct H as (_ & _ & _ & _ & H).
  { reflexivity. }
  { reflexivity. }
  { vm_compute. by eexists. }
  cbv zeta. rewrite H. repeat split; vm_compute; done.
Defined.

(** C5: whenever a mutation ([set], [delete], [rename], or a line of
    [restore] that is applied) reports success, what is on disk is the
    database as that mutation left it. *)
Theorem mutation_flushed (m : Spec.mutation) st st' :
  Spec.run m st = (st', true) →
  BDBTool.disk st' = BDBTool.db st'.
Proof.
  destruct m as [key value force | key | old_key new_key force
                | path force line_num line]; simpl.
  - by intros ->%set_success.
  - by intros ->%delete_success.
  - by intros (w & _ & ->)%rename_success.
  - unfold BDBTool.restore_line.
    destruct (rstrip LF line) as [|a l]; [done|].
    destruct (split1 TAB (String a l)) as [|key [|value [|? ?]]];
      try done.
    destruct (BDBTool.set st key value force) as [st1 []] eqn:Hset; [|done].
    intros [= <-]. by apply set_success in Hset as ->.
Qed.

Lemma mutation_flushed_witness :
  BDBTool.disk (fst (Spec.run (Spec.MSet "foo" "bar" false) BDBTool.fresh))
  = BDBTool.db (fst (Spec.run (Spec.MSet "foo" "bar" false) BDBTool.fresh)).
Proof.
  apply (mutation_flushed (Spec.MSet "foo" "bar" false) BDBTool.fresh).
  reflexivity.
Defined.

(** A restore that starts from a flushed store ends on a flushed store. *)
Lemma restore_loop_flushed path force line_num f st count :
  BDBTool.disk st = BDBTool.db st →
  let r := BDBTool.restore_loop path force line_num f (st, count) in
  BDBTool.disk (fst r) = BDBTool.db (fst r).
Proof.
  revert line_num st count.
  induction f as [|line f IH]; intros line_num st count Hst; [done|].
  cbv zeta. rewrite restore_loop_cons.
  destruct (BDBTool.restore_line path force line_num line (st, count))
    as [st1 c1] eqn:Hline.
  apply IH. revert Hline. unfold BDBTool.restore_line.
  destruct (rstrip LF line) as [|a l]; [by intros [= <- _]|].
  destruct (split1 TAB (String a l)) as [|key [|value [|? ?]]];
    try by intros [= <- _].
  unfold BDBTool.set.
  destruct (negb force && BDBTool.db_has key st); by intros [= <- _].
Qed.

End RestoreLine.

(** ** Dump, then restore *)

(** C1, as stated, at a store whose one key contains a tab: the dump is the
    line [a<TAB>b<TAB>v], which restore reads back as key [a] with value
    [b<TAB>v]; the original key is not in the restored store. *)
Lemma round_trip_loses_key_with_tab :
  let key := "a" +:+ String PyStr.TAB "b" in
  let st := BDBTool.opened {[ key := "v" ]} in
  let text := BDBTool.stdout_text (fst (BDBTool.dump map_to_list st)) in
  let r := BDBTool.restore {[ "dump.txt" := text ]} BDBTool.fresh "dump.txt" false in
  let r' := BDBTool.restore {[ "dump.txt" := text ]} BDBTool.fresh "dump.txt" true in
  BDBTool.get st key = Some "v"
  ∧ snd r = true ∧ BDBTool.get (fst r) key = None
  ∧ snd r' = true ∧ BDBTool.get (fst r') key = None.
Proof. cbv zeta. repeat split; vm_compute; done. Qed.

Section RoundTrip.

Import PyStr PyStrFacts NormalizeFacts.

(** [self.db.items()]: the engine enumerates the records of a map in an
    order of its own choosing. *)
Variable items : gmap string string → list (string * string).
Hypothesis items_perm : ∀ m, items m ≡ₚ map_to_list m.

Implicit Types (st : BDBTool.t) (l : list (string * string))
  (m : gmap string string).

Lemma dump_stdout_from l st :
  BDBTool.stdout
    (foldl (λ acc kv, BDBTool.print (BDBTool.dump_line kv) acc) st l)
  = (BDBTool.stdout st ++ map BDBTool.printed l)%list.
Proof.
  revert st. induction l as [|kv l IH]; intros st; simpl.
  - by rewrite app_nil_r.
  - rewrite IH. simpl. by rewrite <- app_assoc.
Qed.

(** [dump] reads the database and does not touch it. *)
Lemma dump_db st : BDBTool.db (fst (BDBTool.dump items st)) = BDBTool.db st.
Proof.
  unfold BDBTool.dump. simpl. generalize (items (BDBTool.db st)).
  intros l. revert st. induction l as [|kv l IH]; intros st; simpl; [done|].
  by rewrite IH.
Qed.

Lemma dump_text m :
  BDBTool.stdout_text (fst (BDBTool.dump items (BDBTool.opened m)))
  = foldr String.append "" (map BDBTool.printed (items m)).
Proof.
  unfold BDBTool.stdout_text, BDBTool.dump. simpl.
  by rewrite dump_stdout_from.
Qed.

Lemma dump_line_no_LF kv :
  mem LF (fst kv) = false → mem LF (BDBTool.dump_line kv) = false.
Proof.
  intros Hk. unfold BDBTool.dump_line. rewrite mem_app, Hk. simpl.
  apply normalize_no_LF.
Qed.

Lemma dump_line_no_CR kv :
  mem CR (fst kv) = false → mem CR (BDBTool.dump_line kv) = false.
Proof.
  intros Hk. unfold BDBTool.dump_line. rewrite mem_app, Hk. simpl.
  apply normalize_no_CR.
Qed.

Lemma dumped_no_CR l :
  Forall (λ kv, Spec.transferable (fst kv)) l →
  mem CR (foldr String.append "" (map BDBTool.printed l)) = false.
Proof.
  induction 1 as [|kv l (_ & _ & Hcr) _ IH]; simpl; [done|].
  unfold BDBTool.printed at 1. rewrite !mem_app, IH, (dump_line_no_CR _ Hcr). done.
Qed.

(** Reading the dumped text back gives the BDBTool.printed lines, one per
    record. *)
Lemma dumped_lines l :
  Forall (λ kv, Spec.transferable (fst kv)) l →
  lines (universal_newlines (foldr String.append "" (map BDBTool.printed l)))
  = map BDBTool.printed l.
Proof.
  intros Hl. rewrite universal_newlines_absent by by apply dumped_no_CR.
  induction Hl as [|kv l (_ & Hlf & _) _ IH]; cbn [map foldr]; [done|].
  unfold BDBTool.printed at 1. rewrite append_assoc, append_cons, append_nil_l.
  rewrite lines_terminated by by apply dump_line_no_LF.
  by rewrite IH.
Qed.

(** A BDBTool.printed line is a record whose key is the original key. *)
Lemma restore_line_printed path force line_num kv st count :
  mem TAB (fst kv) = false →
  mem LF (fst kv) = false →
  BDBTool.restore_line path force line_num (BDBTool.printed kv) (st, count)
  = (fst (BDBTool.set st (fst kv) (BDBTool.normalize (snd kv)) force),
     if snd (BDBTool.set st (fst kv) (BDBTool.normalize (snd kv)) force)
     then S count else count).
Proof.
  intros Htab Hlf. apply restore_line_record; [|done].
  unfold BDBTool.printed. apply rstrip_terminated. by apply dump_line_no_LF.
Qed.

(** Restoring the printed lines of records with pairwise different keys,
    none of them in the store yet: every line is applied and counted, for
    either value of [force], and nothing is written to the error stream. *)
Lemma restore_loop_printed path force l : ∀ line_num st count,
  NoDup l.*1 →
  Forall (λ kv, Spec.transferable (fst kv) ∧ BDBTool.db st !! fst kv = None) l →
  let r := BDBTool.restore_loop path force line_num
             (map BDBTool.printed l) (st, count) in
  snd r = count + length l
  ∧ BDBTool.stderr (fst r) = BDBTool.stderr st
  ∧ ∀ k, BDBTool.db (fst r) !! k
         = match (list_to_map l : gmap string string) !! k with
           | Some v => Some (BDBTool.normalize v)
           | None => BDBTool.db st !! k
           end.
Proof.
  induction l as [|[k0 v0] l IH]; intros line_num st count Hnd Hl.
  { cbv zeta. simpl. split; [lia|]. split; [done|]. intros k.
    by rewrite lookup_empty. }
  rewrite fmap_cons in Hnd. apply NoDup_cons in Hnd as [Hk0 Hnd].
  apply Forall_cons in Hl as [[(Htab & Hlf & Hcr) Hfree] Hl].
  cbn [fst snd] in Htab, Hlf, Hcr, Hfree.
  cbv zeta. cbn [map]. rewrite restore_loop_cons.
  rewrite restore_line_printed by done. cbn [fst snd].
  rewrite set_applies by by right. cbn [fst snd].
  rewrite normalize_idem.
  set (st1 := BDBTool.db_sync (BDBTool.db_put k0 (BDBTool.normalize v0) st)).
  destruct (IH (S line_num) st1 (S count) Hnd) as (Hc & He & Hdb).
  { apply Forall_forall. intros [k v] Hin.
    rewrite Forall_forall in Hl. destruct (Hl _ Hin) as [Ht Hf].
    split; [done|]. cbn [fst] in *. unfold st1. simpl.
    rewrite lookup_insert_ne; [done|]. intros <-. apply Hk0.
    by apply (list_elem_of_fmap_2 fst l (k0, v)). }
  split; [rewrite Hc; simpl; lia|]. split; [by rewrite He|].
  intros k. rewrite Hdb. rewrite list_to_map_cons. unfold st1. simpl.
  destruct (decide (k0 = k)) as [<-|Hne].
  - rewrite lookup_insert_eq.
    rewrite (not_elem_of_list_to_map_1 l k0 Hk0).
    by rewrite lookup_insert_eq.
  - rewrite !lookup_insert_ne by done. done.
Qed.

Lemma items_keys_NoDup m : NoDup (items m).*1.
Proof. rewrite (items_perm m). apply NoDup_fst_map_to_list. Qed.

Lemma items_list_to_map m : list_to_map (items m) = m.
Proof.
  rewrite (list_to_map_proper _ (map_to_list m)).
  - apply list_to_map_to_list.
  - apply items_keys_NoDup.
  - apply items_perm.
Qed.

Lemma items_length m : length (items m) = size m.
Proof. rewrite (items_perm m). apply length_map_to_list. Qed.

Lemma items_transferable m :
  map_Forall (λ k _, Spec.transferable k) m →
  Forall (λ kv, Spec.transferable (fst kv)) (items m).
Proof.
  intros Hm. rewrite (items_perm m).
  apply map_Forall_to_list in Hm. eapply Forall_impl; [exact Hm|].
  by intros [k v].
Qed.

(** C1 (amended): take a store whose keys contain no tab, no line feed and
    no carriage return.  Whatever the order in which the engine enumerates
    it, dumping it and restoring the dumped text into a fresh store, with
    either value of [force], succeeds, applies every record (the reported
    count is the number of records) and yields a store on which [get]
    answers every key as it does on the original. *)
Theorem dump_restore_round_trip m path force (fs : gmap string string) :
  map_Forall (λ k _, Spec.transferable k) m →
  fs !! path
  = Some (BDBTool.stdout_text (fst (BDBTool.dump items (BDBTool.opened m)))) →
  let r := BDBTool.restore fs BDBTool.fresh path force in
  snd r = true
  ∧ BDBTool.stderr (fst r) = [BDBTool.msg_restored (size m) path]
  ∧ ∀ k, BDBTool.get (fst r) k = BDBTool.get (BDBTool.opened m) k.
Proof.
  intros Hm Hfs. cbv zeta. unfold BDBTool.restore.
  rewrite Hfs, dump_text, (dumped_lines _ (items_transferable m Hm)).
  destruct (restore_loop_printed path force (items m) 1 BDBTool.fresh 0)
    as (Hc & He & Hdb).
  { apply items_keys_NoDup. }
  { eapply Forall_impl; [exact (items_transferable m Hm)|].
    intros kv Hkv. split; [done|]. apply lookup_empty. }
  destruct (BDBTool.restore_loop path force 1
              (map BDBTool.printed (items m)) (BDBTool.fresh, 0))
    as [st' count].
  cbn [fst snd] in *. split; [done|]. split.
  { simpl. rewrite He, Hc, items_length. done. }
  intros k. unfold BDBTool.get. simpl. rewrite Hdb, items_list_to_map.
  destruct (m !! k) as [v|]; [|done]. by rewrite normalize_idem.
Qed.

End RoundTrip.

Lemma dump_restore_round_trip_witness :
  let m : gmap string string :=
    <[ "keyC" := "value" +:+ String PyStr.LF "with" ]>
      {[ "keyD" := "value" +:+ String PyStr.TAB "tab" ]} in
  let text := BDBTool.stdout_text (fst (BDBTool.dump map_to_list (BDBTool.opened m))) in
  let r := BDBTool.restore {[ "dump.txt" := text ]} BDBTool.fresh "dump.txt" false in
  snd r = true
  ∧ BDBTool.stderr (fst r) = [BDBTool.msg_restored (size m) "dump.txt"]
  ∧ ∀ k, BDBTool.get (fst r) k = BDBTool.get (BDBTool.opened m) k.
Proof.
  apply (dump_restore_round_trip map_to_list (λ m, reflexivity _)).
  - apply (bool_decide_unpack _). vm_compute. exact I.
  - apply lookup_singleton_eq.
Defined.

(** ** More about the single-key operations *)

Section StoreMore.

Import PyStr PyStrFacts NormalizeFacts.

Implicit Types (st : BDBTool.t) (k key a b : string) (v value : string)
  (force : bool).

Lemma get_db st st' : BDBTool.db st' = BDBTool.db st →
  ∀ k, BDBTool.get st' k = BDBTool.get st k.
Proof. intros H k. unfold BDBTool.get. by rewrite H. Qed.

(** [delete] on a key that is present removes that key and nothing else,
    and the file is flushed. *)
Theorem delete_then_get st k :
  is_Some (BDBTool.db st !! k) →
  let r := BDBTool.delete st k in
  snd r = true
  ∧ BDBTool.get (fst r) k = None
  ∧ (∀ k', k' ≠ k → BDBTool.get (fst r) k' = BDBTool.get st k')
  ∧ BDBTool.disk (fst r) = BDBTool.db (fst r)
  ∧ BDBTool.stderr (fst r) = BDBTool.stderr st.
Proof.
  intros Hk%db_has_true. cbv zeta. unfold BDBTool.delete. rewrite Hk. simpl.
  split; [done|]. unfold BDBTool.get. simpl. split.
  { by rewrite lookup_delete_eq. }
  split; [|done]. intros k' Hne. by rewrite lookup_delete_ne.
Qed.

Lemma delete_then_get_witness :
  let st := BDBTool.opened (<[ "k1" := "v1" ]> {[ "k2" := "v2" ]}) in
  BDBTool.get (fst (BDBTool.delete st "k1")) "k1" = None
  ∧ BDBTool.get (fst (BDBTool.delete st "k1")) "k2" = Some "v2".
Proof.
  pose proof (delete_then_get
    (BDBTool.opened (<[ "k1" := "v1" ]> {[ "k2" := "v2" ]})) "k1") as H.
  destruct H as (_ & H2 & H3 & _); [vm_compute; by eexists|].
  cbv zeta. split; [exact H2|]. rewrite H3; [reflexivity|discriminate].
Defined.

(** [delete] on a key that is absent fails, says so, and touches neither
    the database nor the file. *)
Theorem delete_absent st k :
  BDBTool.db st !! k = None →
  BDBTool.delete st k
  = (BDBTool.write_stderr (BDBTool.msg_key_not_found k) st, false)
  ∧ BDBTool.db (fst (BDBTool.delete st k)) = BDBTool.db st
  ∧ BDBTool.disk (fst (BDBTool.delete st k)) = BDBTool.disk st.
Proof.
  intros Hk%db_has_false. unfold BDBTool.delete. by rewrite Hk.
Qed.

Lemma delete_absent_witness :
  snd (BDBTool.delete BDBTool.fresh "nonexistent") = false
  ∧ BDBTool.stderr (fst (BDBTool.delete BDBTool.fresh "nonexistent"))
    = [BDBTool.msg_key_not_found "nonexistent"].
Proof.
  destruct (delete_absent BDBTool.fresh "nonexistent") as (H & _).
  { reflexivity. }
  rewrite H. split; reflexivity.
Defined.

(** [set] with [force] never fails: whatever the store held, the key then
    reads back as the one-line form of the value, every other key reads as
    before, and nothing is written to the error stream. *)
Theorem set_force_overwrites st k v :
  let r := BDBTool.set st k v true in
  snd r = true
  ∧ BDBTool.get (fst r) k = Some (Spec.one_line v)
  ∧ (∀ k', k' ≠ k → BDBTool.get (fst r) k' = BDBTool.get st k')
  ∧ BDBTool.stderr (fst r) = BDBTool.stderr st.
Proof.
  cbv zeta. rewrite set_applies by by left. simpl. split; [done|].
  unfold BDBTool.get. simpl. split.
  { by rewrite lookup_insert_eq, normalize_idem, normalize_one_line. }
  split; [|done]. intros k' Hne. by rewrite lookup_insert_ne.
Qed.

(** [set] on a key that is absent, then [delete] of that key: the database
    is what it was before the two calls. *)
Theorem set_delete_round_trip st k v force :
  BDBTool.db st !! k = None →
  let st1 := fst (BDBTool.set st k v force) in
  snd (BDBTool.set st k v force) = true
  ∧ snd (BDBTool.delete st1 k) = true
  ∧ BDBTool.db (fst (BDBTool.delete st1 k)) = BDBTool.db st.
Proof.
  intros Hk. cbv zeta. rewrite set_applies by by right. simpl.
  split; [done|]. unfold BDBTool.delete, BDBTool.db_has. simpl.
  rewrite lookup_insert_eq. rewrite bool_decide_eq_true_2 by by eexists.
  simpl. split; [done|]. by rewrite delete_insert_id.
Qed.

Lemma set_delete_round_trip_witness :
  BDBTool.db (fst (BDBTool.delete
    (fst (BDBTool.set BDBTool.fresh "k" "v" false)) "k")) = ∅.
Proof.
  destruct (set_delete_round_trip BDBTool.fresh "k" "v" false) as (_ & _ & H).
  { reflexivity. }
  exact H.
Defined.

(** [rename] without [force] onto a key that is present fails, says that
    the new key exists, and touches neither the database nor the file; this
    includes renaming a key to itself. *)
Theorem rename_without_force_refused st a b :
  is_Some (BDBTool.db st !! a) →
  is_Some (BDBTool.db st !! b) →
  BDBTool.rename st a b false
  = (BDBTool.write_stderr (BDBTool.msg_new_key_exists b) st, false)
  ∧ (∀ k, BDBTool.get (fst (BDBTool.rename st a b false)) k = BDBTool.get st k)
  ∧ BDBTool.disk (fst (BDBTool.rename st a b false)) = BDBTool.disk st.
Proof.
  intros [w Ha] Hb%db_has_true. unfold BDBTool.rename. rewrite Ha, Hb. done.
Qed.

Lemma rename_without_force_refused_witness :
  let st := BDBTool.opened (<[ "k1" := "v1" ]> {[ "k2" := "v2" ]}) in
  snd (BDBTool.rename st "k1" "k2" false) = false
  ∧ BDBTool.get (fst (BDBTool.rename st "k1" "k2" false)) "k1" = Some "v1"
  ∧ BDBTool.get (fst (BDBTool.rename st "k1" "k2" false)) "k2" = Some "v2".
Proof.
  destruct (rename_without_force_refused
    (BDBTool.opened (<[ "k1" := "v1" ]> {[ "k2" := "v2" ]})) "k1" "k2")
    as (H1 & H2 & _).
  { vm_compute. by eexists. }
  { vm_compute. by eexists. }
  cbv zeta. rewrite !H2. rewrite H1. repeat split; reflexivity.
Defined.

(** [rename] of a key that is absent fails, with or without [force], says
    that the old key is missing, and touches neither the database nor the
    file. *)
Theorem rename_missing_old_key st a b force :
  BDBTool.db st !! a = None →
  BDBTool.rename st a b force
  = (BDBTool.write_stderr (BDBTool.msg_old_key_not_found a) st, false)
  ∧ BDBTool.db (fst (BDBTool.rename st a b force)) = BDBTool.db st
  ∧ BDBTool.disk (fst (BDBTool.rename st a b force)) = BDBTool.disk st.
Proof. intros Ha. unfold BDBTool.rename. by rewrite Ha. Qed.

Lemma rename_missing_old_key_witness :
  BDBTool.rename BDBTool.fresh "nonexistent" "new" true
  = (BDBTool.write_stderr (BDBTool.msg_old_key_not_found "nonexistent")
       BDBTool.fresh, false).
Proof.
  apply (rename_missing_old_key BDBTool.fresh "nonexistent" "new" true).
  reflexivity.
Defined.

(** [rename] onto a key that is absent, with or without [force]: the new
    key holds the very bytes the old key held (they are not normalized on the
    way), the old key is gone, every other key is as before, the number of
    records is the same, and the file is flushed. *)
Theorem rename_to_fresh_key st a b force value_bin :
  BDBTool.db st !! a = Some value_bin →
  BDBTool.db st !! b = None →
  let r := BDBTool.rename st a b force in
  snd r = true
  ∧ BDBTool.db (fst r) !! b = Some value_bin
  ∧ BDBTool.db (fst r) !! a = None
  ∧ (∀ k, k ≠ a → k ≠ b → BDBTool.db (fst r) !! k = BDBTool.db st !! k)
  ∧ size (BDBTool.db (fst r)) = size (BDBTool.db st)
  ∧ BDBTool.disk (fst r) = BDBTool.db (fst r).
Proof.
  intros Ha Hb. assert (a ≠ b) as Hab by congruence.
  cbv zeta. rewrite (rename_applies st a b force value_bin Ha) by by right.
  simpl. split; [done|]. split.
  { by rewrite lookup_delete_ne, lookup_insert_eq. }
  split; [by rewrite lookup_delete_eq|]. split.
  { intros k Hka Hkb. by rewrite lookup_delete_ne, lookup_insert_ne. }
  split; [|done].
  assert (size (<[b:=value_bin]> (BDBTool.db st)) = S (size (BDBTool.db st)))
    as Hins by by apply map_size_insert_None.
  assert (is_Some (<[b:=value_bin]> (BDBTool.db st) !! a)) as Hin.
  { rewrite lookup_insert_ne by done. by eexists. }
  pose proof (map_size_delete_Some _ _ Hin) as Hdel. lia.
Qed.

Lemma rename_to_fresh_key_witness :
  let st := BDBTool.opened {[ "oldname" := "somevalue" ]} in
  BDBTool.db (fst (BDBTool.rename st "oldname" "newname" false)) !! "newname"
  = Some "somevalue"
  ∧ BDBTool.db (fst (BDBTool.rename st "oldname" "newname" false)) !! "oldname"
    = None.
Proof.
  destruct (rename_to_fresh_key (BDBTool.opened {[ "oldname" := "somevalue" ]})
    "oldname" "newname" false "somevalue") as (_ & H2 & H3 & _).
  { reflexivity. }
  { reflexivity. }
  split; [exact H2 | exact H3].
Defined.

(** [rename a b] onto an absent key followed by [rename b a] gives back the
    database there was. *)
Theorem rename_round_trip st a b force force' :
  is_Some (BDBTool.db st !! a) →
  BDBTool.db st !! b = None →
  let st1 := fst (BDBTool.rename st a b force) in
  snd (BDBTool.rename st a b force) = true
  ∧ snd (BDBTool.rename st1 b a force') = true
  ∧ BDBTool.db (fst (BDBTool.rename st1 b a force')) = BDBTool.db st.
Proof.
  intros [w Ha] Hb. assert (a ≠ b) as Hab by congruence.
  cbv zeta. rewrite (rename_applies st a b force w Ha) by by right.
  cbn [fst snd]. split; [done|].
  set (st1 := BDBTool.db_sync (BDBTool.db_del a (BDBTool.db_put b w st))).
  assert (BDBTool.db st1 !! b = Some w) as Hb1.
  { unfold st1. simpl. by rewrite lookup_delete_ne, lookup_insert_eq. }
  assert (BDBTool.db st1 !! a = None) as Ha1.
  { unfold st1. simpl. by rewrite lookup_delete_eq. }
  rewrite (rename_applies st1 b a force' w Hb1) by by right.
  cbn [fst snd]. split; [done|]. unfold st1. simpl.
  apply map_eq. intros k.
  destruct (decide (k = b)) as [->|Hkb].
  { by rewrite lookup_delete_eq. }
  rewrite lookup_delete_ne by done.
  destruct (decide (k = a)) as [->|Hka].
  { by rewrite lookup_insert_eq. }
  by rewrite lookup_insert_ne, lookup_delete_ne, lookup_insert_ne.
Qed.

Lemma rename_round_trip_witness :
  let st := BDBTool.opened {[ "a" := "v" ]} in
  BDBTool.db (fst (BDBTool.rename
    (fst (BDBTool.rename st "a" "b" false)) "b" "a" false)) = BDBTool.db st.
Proof.
  destruct (rename_round_trip (BDBTool.opened {[ "a" := "v" ]})
    "a" "b" false false) as (_ & _ & H).
  { vm_compute. by eexists. }
  { reflexivity. }
  exact H.
Defined.

(** Whatever bytes the database holds, raw line breaks included, what [get]
    returns has no carriage return and no line feed in it. *)
Theorem get_single_line st k v :
  BDBTool.get st k = Some v → Spec.single_line v.
Proof.
  unfold BDBTool.get. destruct (BDBTool.db st !! k) as [w|]; [|done].
  intros [= <-]. split; [apply normalize_no_CR | apply normalize_no_LF].
Qed.

Lemma get_single_line_witness :
  Spec.single_line ("a" +:+ String SP "b").
Proof.
  apply (get_single_line
    (BDBTool.opened {[ "k" := "a" +:+ String CR (String LF "b") ]}) "k").
  reflexivity.
Defined.

(** In a store whose values are all on one line, [get] returns the stored
    bytes as they are. *)
Lemma get_normalized st k :
  Spec.normalized_store st → BDBTool.get st k = BDBTool.db st !! k.
Proof.
  intros Hst. unfold BDBTool.get.
  destruct (BDBTool.db st !! k) as [w|] eqn:Hk; [|done].
  destruct (Hst k w Hk) as [Hcr Hlf]. by rewrite normalize_absent.
Qed.

Lemma normalize_single_line v : Spec.single_line (BDBTool.normalize v).
Proof. split; [apply normalize_no_CR | apply normalize_no_LF]. Qed.

Lemma set_normalized st k v force :
  Spec.normalized_store st →
  Spec.normalized_store (fst (BDBTool.set st k v force)).
Proof.
  intros Hst. unfold BDBTool.set.
  destruct (negb force && BDBTool.db_has k st); [done|].
  unfold Spec.normalized_store. simpl. apply map_Forall_insert_2; [|done].
  apply normalize_single_line.
Qed.

(** No operation brings a line break into the store: if every value is on
    one line, that is still so after [set], [delete], [rename] or a line of
    [restore], whether the operation succeeds or fails. *)
Theorem normalized_preserved (m : Spec.mutation) st :
  Spec.normalized_store st →
  Spec.normalized_store (fst (Spec.run m st)).
Proof.
  intros Hst.
  destruct m as [key value force | key | old_key new_key force
                | path force line_num line]; simpl.
  - by apply set_normalized.
  - unfold BDBTool.delete. destruct (negb (BDBTool.db_has key st)); [done|].
    unfold Spec.normalized_store. simpl. by apply map_Forall_delete.
  - unfold BDBTool.rename.
    destruct (BDBTool.db st !! old_key) as [w|] eqn:Hold; [|done].
    destruct (negb force && BDBTool.db_has new_key st); [done|].
    unfold Spec.normalized_store. simpl. apply map_Forall_delete.
    apply map_Forall_insert_2; [|done]. by apply (Hst old_key).
  - unfold BDBTool.restore_line.
    destruct (rstrip LF line) as [|c l]; [done|].
    destruct (split1 TAB (String c l)) as [|key [|value [|? ?]]]; try done.
    pose proof (set_normalized st key value force Hst) as H.
    by destruct (BDBTool.set st key value force) as [st1 ok].
Qed.

Lemma normalized_preserved_witness :
  Spec.normalized_store
    (fst (Spec.run (Spec.MSet "k" ("a" +:+ String LF "b") true)
       (BDBTool.opened {[ "k2" := "v2" ]}))).
Proof.
  apply (normalized_preserved (Spec.MSet "k" ("a" +:+ String LF "b") true)).
  apply (bool_decide_unpack _). vm_compute. exact I.
Defined.

End StoreMore.

(** ** More about restore *)

Section RestoreMore.

Import PyStr PyStrFacts NormalizeFacts.

Implicit Types (st : BDBTool.t) (key value line path : string)
  (force : bool) (count line_num : nat) (f : list string)
  (m : gmap string string).

(** The loop body, by the shape of the line. *)
Lemma restore_line_by_cut path force line_num line st count :
  BDBTool.restore_line path force line_num line (st, count)
  = match cut TAB (rstrip LF line) with
    | (key, Some value) =>
        (fst (BDBTool.set st key value force),
         if snd (BDBTool.set st key value force) then S count else count)
    | (_, None) =>
        match rstrip LF line with
        | EmptyString => (st, count)
        | _ => (BDBTool.write_stderr
                  (BDBTool.msg_invalid_line line_num path (rstrip LF line)) st,
                count)
        end
    end.
Proof.
  unfold BDBTool.restore_line, split1.
  destruct (rstrip LF line) as [|c l] eqn:Hs; [done|].
  destruct (cut TAB (String c l)) as [h [t|]]; [|done].
  by destruct (BDBTool.set st h t force).
Qed.

Lemma db_write_stderr msg st :
  BDBTool.db (BDBTool.write_stderr msg st) = BDBTool.db st.
Proof. done. Qed.

Lemma set_db st key value force :
  BDBTool.db (fst (BDBTool.set st key value force))
  = if negb force && bool_decide (is_Some (BDBTool.db st !! key))
    then BDBTool.db st
    else <[key := BDBTool.normalize value]> (BDBTool.db st).
Proof.
  unfold BDBTool.set, BDBTool.db_has.
  by destruct (negb force && bool_decide (is_Some (BDBTool.db st !! key))).
Qed.

Lemma set_flag st key value force :
  snd (BDBTool.set st key value force)
  = negb (negb force && bool_decide (is_Some (BDBTool.db st !! key))).
Proof.
  unfold BDBTool.set, BDBTool.db_has.
  by destruct (negb force && bool_decide (is_Some (BDBTool.db st !! key))).
Qed.

Lemma restore_line_db path force line_num line st count :
  BDBTool.db (fst (BDBTool.restore_line path force line_num line (st, count)))
  = Transfer.line_effect force line (BDBTool.db st).
Proof.
  rewrite restore_line_by_cut. unfold Transfer.line_effect.
  destruct (cut TAB (rstrip LF line)) as [h [t|]].
  - cbn [fst]. apply set_db.
  - by destruct (rstrip LF line).
Qed.

Lemma restore_loop_db path force f : ∀ line_num st count,
  BDBTool.db (fst (BDBTool.restore_loop path force line_num f (st, count)))
  = foldl (λ m line, Transfer.line_effect force line m) (BDBTool.db st) f.
Proof.
  induction f as [|line f IH]; intros line_num st count; [done|].
  rewrite restore_loop_cons. cbn [foldl].
  rewrite <- (restore_line_db path force line_num line st count).
  destruct (BDBTool.restore_line path force line_num line (st, count))
    as [st1 c1]. apply IH.
Qed.

(** A line never takes a key away; without [force] it changes no
    binding. *)
Lemma line_effect_keeps force line m k :
  is_Some (m !! k) →
  is_Some (Transfer.line_effect force line m !! k)
  ∧ (force = false → Transfer.line_effect force line m !! k = m !! k).
Proof.
  intros Hk. unfold Transfer.line_effect.
  destruct (cut TAB (rstrip LF line)) as [h [t|]]; [|done].
  destruct (decide (h = k)) as [->|Hne].
  - rewrite bool_decide_eq_true_2 by done.
    destruct force; simpl; [|done].
    rewrite lookup_insert_eq. split; [by eexists|done].
  - destruct (negb force && bool_decide (is_Some (m !! h))); [done|].
    by rewrite lookup_insert_ne.
Qed.

Lemma lines_effect_keeps force f : ∀ m k,
  is_Some (m !! k) →
  is_Some (foldl (λ m line, Transfer.line_effect force line m) m f !! k)
  ∧ (force = false →
     foldl (λ m line, Transfer.line_effect force line m) m f !! k = m !! k).
Proof.
  induction f as [|line f IH]; intros m k Hk; [done|]. cbn [foldl].
  destruct (line_effect_keeps force line m k Hk) as [H1 H2].
  destruct (IH _ k H1) as [H3 H4]. split; [done|].
  intros ->. by rewrite H4, H2.
Qed.

(** [restore] never removes a key, and without [force] it leaves every
    binding that was there as it was, whatever the input file holds and
    whether or not it exists. *)
Theorem restore_keeps_bindings (fs : gmap string string) st path force k :
  is_Some (BDBTool.db st !! k) →
  let r := BDBTool.restore fs st path force in
  is_Some (BDBTool.db (fst r) !! k)
  ∧ (force = false → BDBTool.get (fst r) k = BDBTool.get st k).
Proof.
  intros Hk. cbv zeta. unfold BDBTool.restore.
  destruct (fs !! path) as [content|]; [|done].
  pose proof (restore_loop_db path force
    (lines (universal_newlines content)) 1 st 0) as Hdb.
  destruct (BDBTool.restore_loop path force 1
    (lines (universal_newlines content)) (st, 0)) as [st' count].
  cbn [fst] in *. rewrite db_write_stderr, Hdb.
  destruct (lines_effect_keeps force (lines (universal_newlines content))
    _ k Hk) as [H1 H2].
  split; [done|]. intros Hf. unfold BDBTool.get. simpl.
  by rewrite Hdb, (H2 Hf).
Qed.

Lemma restore_keeps_bindings_witness :
  let st := BDBTool.opened {[ "k1" := "old" ]} in
  let fs : gmap string string :=
    {[ "in.txt" := "k1" +:+ String TAB ("new" +:+ String LF "") ]} in
  BDBTool.get (fst (BDBTool.restore fs st "in.txt" false)) "k1" = Some "old".
Proof.
  destruct (restore_keeps_bindings
    {[ "in.txt" := "k1" +:+ String TAB ("new" +:+ String LF "") ]}
    (BDBTool.opened {[ "k1" := "old" ]}) "in.txt" false "k1") as [_ H].
  { vm_compute. by eexists. }
  cbv zeta. rewrite H by done. reflexivity.
Defined.

(** The number of records a restore counts is at most the number of lines
    that have a tab, and with [force] it is exactly that number. *)
Theorem restore_count path force f : ∀ line_num st count,
  let r := BDBTool.restore_loop path force line_num f (st, count) in
  (snd r ≤ count + length (List.filter Transfer.is_record f))%nat
  ∧ (force = true →
     snd r = count + length (List.filter Transfer.is_record f)).
Proof.
  induction f as [|line f IH]; intros line_num st count.
  { cbv zeta. simpl. split; [lia|intros; lia]. }
  assert (Transfer.is_record line
          = bool_decide (is_Some (snd (cut TAB (rstrip LF line))))) as Hrec.
  { unfold Transfer.is_record. rewrite <- (rstrip_mem LF TAB line) by done.
    apply cut_mem. }
  cbv zeta. rewrite restore_loop_cons, restore_line_by_cut.
  cbn [List.filter]. rewrite Hrec. clear Hrec.
  destruct (cut TAB (rstrip LF line)) as [h [t|]]; cbn [snd].
  - rewrite bool_decide_eq_true_2 by by eexists.
    rewrite set_flag. cbn [length].
    generalize (length (List.filter Transfer.is_record f)) (IH (S line_num)).
    clear IH. intros n IH.
    destruct force; cbn [negb andb].
    + destruct (IH (fst (BDBTool.set st h t true)) (S count)) as [H1 H2].
      specialize (H2 eq_refl).
      split; [|intros _]; rewrite H2; lia.
    + split; [|done].
      destruct (bool_decide (is_Some (BDBTool.db st !! h))); cbn [negb].
      * destruct (IH (fst (BDBTool.set st h t false)) count) as [H1 _].
        etrans; [exact H1|]. lia.
      * destruct (IH (fst (BDBTool.set st h t false)) (S count)) as [H1 _].
        etrans; [exact H1|]. lia.
  - rewrite bool_decide_eq_false_2 by by intros [? ?].
    destruct (rstrip LF line); apply IH.
Qed.

Lemma restore_count_witness :
  snd (BDBTool.restore_loop "in.txt" true 1
    [ "k" +:+ String TAB ("v1" +:+ String LF "");
      "badline" +:+ String LF "";
      "k" +:+ String TAB ("v2" +:+ String LF "") ] (BDBTool.fresh, 0)) = 2.
Proof.
  destruct (restore_count "in.txt" true
    [ "k" +:+ String TAB ("v1" +:+ String LF "");
      "badline" +:+ String LF "";
      "k" +:+ String TAB ("v2" +:+ String LF "") ] 1 BDBTool.fresh 0)
    as [_ H].
  rewrite H by reflexivity. reflexivity.
Defined.

(** The effect of a whole input on the database is a union with what the
    input does to an empty database: the input wins with [force], the
    database wins without. *)
Lemma line_effect_union force line m :
  Transfer.line_effect force line m
  = if force then Transfer.line_effect force line ∅ ∪ m
    else m ∪ Transfer.line_effect force line ∅.
Proof.
  unfold Transfer.line_effect.
  destruct (cut TAB (rstrip LF line)) as [h [t|]].
  - rewrite lookup_empty.
    rewrite (bool_decide_eq_false_2 (is_Some None)) by by intros [? ?].
    rewrite andb_false_r. destruct force; cbn [negb andb].
    + by rewrite insert_empty, insert_union_singleton_l.
    + rewrite insert_empty.
      destruct (m !! h) as [w|] eqn:Hh.
      * rewrite bool_decide_eq_true_2 by by eexists.
        apply map_eq. intros k. rewrite lookup_union.
        destruct (decide (h = k)) as [<-|Hne].
        -- rewrite Hh, lookup_singleton_eq. done.
        -- rewrite lookup_singleton_ne by done.
           by destruct (m !! k).
      * rewrite bool_decide_eq_false_2 by by intros [? ?].
        by rewrite insert_union_singleton_r.
  - destruct force; [by rewrite (left_id_L ∅ (∪))|by rewrite (right_id_L ∅ (∪))].
Qed.

Lemma lines_effect_union force f : ∀ m,
  foldl (λ m line, Transfer.line_effect force line m) m f
  = if force
    then foldl (λ m line, Transfer.line_effect force line m) ∅ f ∪ m
    else m ∪ foldl (λ m line, Transfer.line_effect force line m) ∅ f.
Proof.
  induction f as [|line f IH]; intros m; cbn [foldl].
  { destruct force; [by rewrite (left_id_L ∅ (∪))|by rewrite (right_id_L ∅ (∪))]. }
  rewrite (IH (Transfer.line_effect force line m)).
  rewrite (IH (Transfer.line_effect force line ∅)).
  rewrite (line_effect_union force line m).
  destruct force; by rewrite (assoc_L (∪)).
Qed.

Lemma lines_effect_idem force f m :
  let E := foldl (λ m line, Transfer.line_effect force line m) in
  E (E m f) f = E m f.
Proof.
  cbv zeta. rewrite (lines_effect_union force f (foldl _ m f)).
  rewrite (lines_effect_union force f m).
  destruct force.
  - by rewrite (assoc_L (∪)), (idemp_L (∪)).
  - by rewrite <- (assoc_L (∪)), (idemp_L (∪)).
Qed.

(** Restoring the same file a second time, with the same [force], changes
    nothing in the database. *)
Theorem restore_twice (fs : gmap string string) st path force :
  let st1 := fst (BDBTool.restore fs st path force) in
  BDBTool.db (fst (BDBTool.restore fs st1 path force)) = BDBTool.db st1.
Proof.
  cbv zeta. unfold BDBTool.restore.
  destruct (fs !! path) as [content|]; [|done].
  set (f := lines (universal_newlines content)).
  pose proof (restore_loop_db path force f 1 st 0) as H1.
  destruct (BDBTool.restore_loop path force 1 f (st, 0)) as [st1 c1].
  cbn [fst] in *.
  pose proof (restore_loop_db path force f 1
    (BDBTool.write_stderr (BDBTool.msg_restored c1 path) st1) 0) as H2.
  destruct (BDBTool.restore_loop path force 1 f
    (BDBTool.write_stderr (BDBTool.msg_restored c1 path) st1, 0))
    as [st2 c2].
  cbn [fst] in *. rewrite !db_write_stderr in *. rewrite H2, H1.
  apply (lines_effect_idem force f).
Qed.





(** A restore that starts on a flushed store ends on a flushed store,
    whatever the lines of the input and whether or not the file exists. *)
Theorem restore_flushed (fs : gmap string string) st path force :
  BDBTool.disk st = BDBTool.db st →
  BDBTool.disk (fst (BDBTool.restore fs st path force))
  = BDBTool.db (fst (BDBTool.restore fs st path force)).
Proof.
  intros Hst. unfold BDBTool.restore.
  destruct (fs !! path) as [content|]; [|done].
  pose proof (restore_loop_flushed path force 1
    (lines (universal_newlines content)) st 0 Hst) as H.
  cbv zeta in H.
  by destruct (BDBTool.restore_loop path force 1
    (lines (universal_newlines content)) (st, 0)) as [st' count].
Qed.

Lemma restore_flushed_witness :
  let fs : gmap string string :=
    {[ "in.txt" := "k1" +:+ String TAB ("v1" +:+ String LF "") ]} in
  BDBTool.disk (fst (BDBTool.restore fs BDBTool.fresh "in.txt" true))
  = BDBTool.db (fst (BDBTool.restore fs BDBTool.fresh "in.txt" true)).
Proof.
  apply (restore_flushed
    {[ "in.txt" := "k1" +:+ String TAB ("v1" +:+ String LF "") ]}
    BDBTool.fresh "in.txt" true).
  reflexivity.
Defined.

End RestoreMore.

(** ** Dump *)

Section DumpMore.

Import PyStr PyStrFacts NormalizeFacts.

Variable items : gmap string string → list (string * string).
Hypothesis items_perm : ∀ m, items m ≡ₚ map_to_list m.

Implicit Types (st : BDBTool.t) (l : list (string * string)).

(** Printing touches the output stream only. *)
Lemma print_all_frame l : ∀ st,
  let st' := foldl (λ acc kv, BDBTool.print (BDBTool.dump_line kv) acc) st l in
  BDBTool.db st' = BDBTool.db st
  ∧ BDBTool.disk st' = BDBTool.disk st
  ∧ BDBTool.stderr st' = BDBTool.stderr st
  ∧ BDBTool.stdout st' = (BDBTool.stdout st ++ map BDBTool.printed l)%list.
Proof.
  induction l as [|kv l IH]; intros st; cbn [foldl map].
  { by rewrite app_nil_r. }
  destruct (IH (BDBTool.print (BDBTool.dump_line kv) st)) as (H1 & H2 & H3 & H4).
  cbv zeta in *. rewrite H1, H2, H3, H4. simpl.
  by rewrite <- app_assoc.
Qed.


End DumpMore.


(** ** The command line *)

Section Main.

Import PyStr PyStrFacts NormalizeFacts.

Variable items : gmap string string → list (string * string).

Implicit Types (tool : BDBTool.t) (w : CLI.world) (a : CLI.args)
  (c : CLI.command) (force : bool) (fs : gmap string string)
  (temp_db_dir path : string).


(** A command that starts on a flushed store ends on a flushed store. *)
Lemma execute_flushed fs force c tool :
  BDBTool.disk tool = BDBTool.db tool →
  BDBTool.disk (fst (CLI.execute items fs force c tool))
  = BDBTool.db (fst (CLI.execute items fs force c tool)).
Proof.
  intros Ht. destruct c as [k v | k | k | o n | | f]; simpl.
  - unfold BDBTool.set. by destruct (negb force && BDBTool.db_has k tool).
  - unfold BDBTool.get. by destruct (BDBTool.db tool !! k).
  - unfold BDBTool.delete. by destruct (negb (BDBTool.db_has k tool)).
  - unfold BDBTool.rename. destruct (BDBTool.db tool !! o); [|done].
    by destruct (negb force && BDBTool.db_has n tool).
  - destruct (print_all_frame (items (BDBTool.db tool)) tool) as (H1 & H2 & _).
    cbv zeta in *. by rewrite H1, H2.
  - unfold BDBTool.restore. destruct (fs !! f) as [content|]; [|done].
    pose proof (restore_loop_flushed f force 1
      (lines (universal_newlines content)) tool 0 Ht) as H. cbv zeta in H.
    by destruct (BDBTool.restore_loop f force 1 _ _).
Qed.

Lemma open_tool_flushed temp_db_dir d w :
  BDBTool.disk (CLI.open_tool temp_db_dir d w)
  = BDBTool.db (CLI.open_tool temp_db_dir d w).
Proof. by destruct d. Qed.

(** What the database files hold after a run. *)
Lemma main_content temp_db_dir a w path :
  CLI.content (CLI.world_of (CLI.main items temp_db_dir a w)) path
  = match CLI.database_of a with
    | CLI.Db p =>
        if decide (p = path)
        then BDBTool.disk (CLI.tool_of (CLI.main items temp_db_dir a w))
        else CLI.content w path
    | CLI.TempDb => CLI.content w path
    end.
Proof.
  unfold CLI.main.
  destruct (CLI.execute items (CLI.text_files w) (CLI.force a)
    (CLI.command_of a) (CLI.open_tool temp_db_dir (CLI.database_of a) w))
    as [tool' success].
  cbn [CLI.world_of CLI.tool_of]. destruct (CLI.database_of a) as [p|]; [|done].
  unfold CLI.content. cbn [CLI.db_files].
  destruct (decide (p = path)) as [->|Hne].
  - by rewrite lookup_insert_eq.
  - by rewrite lookup_insert_ne.
Qed.

Lemma main_tool temp_db_dir a w :
  CLI.tool_of (CLI.main items temp_db_dir a w)
  = fst (CLI.execute items (CLI.text_files w) (CLI.force a) (CLI.command_of a)
           (CLI.open_tool temp_db_dir (CLI.database_of a) w)).
Proof. unfold CLI.main. by destruct (CLI.execute _ _ _ _ _). Qed.



(** A run with [--db] leaves in the file exactly the database the tool held
    when it finished: nothing the command did is left unwritten. *)
Theorem main_persists temp_db_dir a w path :
  CLI.database_of a = CLI.Db path →
  CLI.content (CLI.world_of (CLI.main items temp_db_dir a w)) path
  = BDBTool.db (CLI.tool_of (CLI.main items temp_db_dir a w)).
Proof.
  intros Hdb. rewrite main_content, Hdb.
  rewrite decide_True by done. rewrite main_tool.
  apply execute_flushed, open_tool_flushed.
Qed.

(** [get] and [dump] never change the content of a database file. *)
Theorem main_read_only temp_db_dir a w :
  (∃ k, CLI.command_of a = CLI.CmdGet k) ∨ CLI.command_of a = CLI.CmdDump →
  ∀ path,
    CLI.content (CLI.world_of (CLI.main items temp_db_dir a w)) path
    = CLI.content w path.
Proof.
  intros Hc path. rewrite main_content, main_tool.
  destruct (CLI.database_of a) as [p|]; [|done].
  destruct (decide (p = path)) as [->|]; [|done].
  destruct Hc as [[k ->] | ->]; cbn [CLI.execute].
  - by destruct (BDBTool.get _ k).
  - unfold BDBTool.dump. cbn [fst].
    destruct (print_all_frame
      (items (BDBTool.db (CLI.open_tool temp_db_dir (CLI.Db path) w)))
      (CLI.open_tool temp_db_dir (CLI.Db path) w)) as (_ & H2 & _).
    cbv zeta in H2. by rewrite H2.
Qed.

(** Across two runs on the same file: when [set KEY VALUE] exits with 0, a
    later [get KEY] exits with 0 and prints the one-line form of the value,
    and nothing else. *)
Theorem main_set_then_get temp_db_dir temp_db_dir' path k v force force' w :
  let out1 := CLI.main items temp_db_dir
                (CLI.mk_args (CLI.Db path) force (CLI.CmdSet k v)) w in
  let out2 := CLI.main items temp_db_dir'
                (CLI.mk_args (CLI.Db path) force' (CLI.CmdGet k))
                (CLI.world_of out1) in
  CLI.exit_code out1 = 0 →
  CLI.exit_code out2 = 0
  ∧ BDBTool.stdout (CLI.tool_of out2) = [Spec.one_line v +:+ String LF ""]
  ∧ BDBTool.stderr (CLI.tool_of out2) = [].
Proof.
  cbv zeta. unfold CLI.main at 2 3 4. cbn [CLI.force CLI.command_of CLI.database_of
    CLI.execute CLI.open_tool CLI.text_files].
  unfold CLI.main.
  cbn [CLI.force CLI.command_of CLI.database_of CLI.execute CLI.open_tool].
  destruct (BDBTool.set (BDBTool.opened (default ∅ (CLI.db_files w !! path)))
              k v force) as [tool1 ok] eqn:Hset.
  cbn [CLI.exit_code CLI.world_of CLI.db_files CLI.text_files].
  destruct ok; [|done]. intros _.
  apply set_success in Hset as ->.
  rewrite lookup_insert_eq. cbn [default].
  unfold BDBTool.get. simpl. rewrite lookup_insert_eq.
  simpl. by rewrite normalize_idem, normalize_one_line.
Qed.


End Main.


Lemma main_persists_witness :
  let out := CLI.main map_to_list "/tmp/x"
               (CLI.mk_args (CLI.Db "db") false (CLI.CmdSet "foo" "bar"))
               (CLI.mk_world ∅ ∅) in
  CLI.content (CLI.world_of out) "db" = BDBTool.db (CLI.tool_of out).
Proof.
  apply (main_persists map_to_list). reflexivity.
Defined.

Lemma main_read_only_witness :
  let w := CLI.mk_world {[ "db" := {[ "foo" := "bar" ]} ]} ∅ in
  let out := CLI.main map_to_list "/tmp/x"
               (CLI.mk_args (CLI.Db "db") true CLI.CmdDump) w in
  CLI.content (CLI.world_of out) "db" = CLI.content w "db".
Proof.
  apply (main_read_only map_to_list). right. reflexivity.
Defined.

Lemma main_set_then_get_witness :
  let out1 := CLI.main map_to_list "/tmp/x"
                (CLI.mk_args (CLI.Db "db") false (CLI.CmdSet "foo" "bar"))
                (CLI.mk_world ∅ ∅) in
  let out2 := CLI.main map_to_list "/tmp/y"
                (CLI.mk_args (CLI.Db "db") false (CLI.CmdGet "foo"))
                (CLI.world_of out1) in
  CLI.exit_code out2 = 0
  ∧ BDBTool.stdout (CLI.tool_of out2) = ["bar" +:+ String PyStr.LF ""]
  ∧ BDBTool.stderr (CLI.tool_of out2) = [].
Proof.
  apply (main_set_then_get map_to_list "/tmp/x" "/tmp/y" "db" "foo" "bar"
    false false (CLI.mk_world ∅ ∅)).
  reflexivity.
Defined.

(** ** Close *)


(** ** Line breaks never reach the database files *)

Section SingleLine.

Import PyStr PyStrFacts NormalizeFacts.

Variable items : gmap string string → list (string * string).

Lemma restore_loop_normalized path force f : ∀ line_num st count,
  Spec.normalized_store st →
  Spec.normalized_store
    (fst (BDBTool.restore_loop path force line_num f (st, count))).
Proof.
  induction f as [|line f IH]; intros line_num st count Hst; [done|].
  rewrite restore_loop_cons, restore_line_by_cut.
  destruct (cut TAB (rstrip LF line)) as [h [t|]].
  - apply IH. by apply set_normalized.
  - destruct (rstrip LF line); by apply IH.
Qed.

Lemma execute_normalized fs force c tool :
  Spec.normalized_store tool →
  Spec.normalized_store (fst (CLI.execute items fs force c tool)).
Proof.
  intros Ht. destruct c as [k v | k | k | o n | | f]; cbn [CLI.execute].
  - by apply set_normalized.
  - by destruct (BDBTool.get tool k).
  - unfold BDBTool.delete. destruct (negb (BDBTool.db_has k tool)); [done|].
    unfold Spec.normalized_store. simpl. by apply map_Forall_delete.
  - unfold BDBTool.rename.
    destruct (BDBTool.db tool !! o) as [w|] eqn:Ho; [|done].
    destruct (negb force && BDBTool.db_has n tool); [done|].
    unfold Spec.normalized_store. simpl. apply map_Forall_delete.
    apply map_Forall_insert_2; [|done]. by apply (Ht o).
  - unfold BDBTool.dump. cbn [fst]. unfold Spec.normalized_store.
    destruct (print_all_frame (items (BDBTool.db tool)) tool) as (H1 & _).
    cbv zeta in H1. by rewrite H1.
  - unfold BDBTool.restore. destruct (fs !! f) as [content|]; [|done].
    pose proof (restore_loop_normalized f force
      (lines (universal_newlines content)) 1 tool 0 Ht) as H.
    by destruct (BDBTool.restore_loop f force 1 _ _).
Qed.

(** If no value in any database file holds a carriage return or a line
    feed, the same is true after a run of the tool, whatever the command and
    its outcome; in particular for files that only this tool has written. *)
Theorem main_keeps_single_line temp_db_dir (a : CLI.args) (w : CLI.world) :
  (∀ path, map_Forall (λ _ v, Spec.single_line v) (CLI.content w path)) →
  ∀ path,
    map_Forall (λ _ v, Spec.single_line v)
      (CLI.content (CLI.world_of (CLI.main items temp_db_dir a w)) path).
Proof.
  intros Hw path. rewrite main_content.
  destruct (CLI.database_of a) as [p|] eqn:Hdb; [|done].
  destruct (decide (p = path)) as [->|]; [|done].
  rewrite main_tool, Hdb.
  rewrite execute_flushed by apply open_tool_flushed.
  apply execute_normalized. exact (Hw path).
Qed.

End SingleLine.

Lemma main_keeps_single_line_witness :
  let out := CLI.main map_to_list "/tmp/x"
    (CLI.mk_args (CLI.Db "db") false
       (CLI.CmdSet "k" ("a" +:+ String PyStr.LF "b")))
    (CLI.mk_world ∅ ∅) in
  map_Forall (λ _ v, Spec.single_line v) (CLI.content (CLI.world_of out) "db").
Proof.
  apply (main_keeps_single_line map_to_list "/tmp/x"
    (CLI.mk_args (CLI.Db "db") false
       (CLI.CmdSet "k" ("a" +:+ String PyStr.LF "b")))
    (CLI.mk_world ∅ ∅)).
  intros path. apply map_Forall_empty.
Defined.
